(** * rpp: reverse-DNS names, RDE controller lookup, SETINPREF advertisement

    A shallow embedding of [rpp.c].  C strings are lists of characters
    (the characters before the terminating NUL), character buffers are lists
    of characters standing for the memory that starts at the pointer, and
    [int] values are integers of [Z].  The C library and the resolver
    library are the environment of the program: [inet_pton] is given both as
    a parameter of [ip2revdns] and as an executable model, the resolver and
    the socket calls are parameters and scripted results. *)

From Stdlib Require Import ZArith String Ascii List Lia DecimalString.
From stdpp Require Import base option list sets.

Open Scope Z_scope.

(** ** C strings and buffers *)

Abbreviation cstring := (list ascii) (only parsing).
Abbreviation buffer := (list ascii) (only parsing).

Definition NUL : ascii := "000"%char.
Definition TAB : ascii := "009"%char.
Definition CR : ascii := "013"%char.
Definition LF : ascii := "010"%char.

(** A string literal of the source. *)
Definition lit (s : string) : cstring := list_ascii_of_string s.

Definition strlen (s : cstring) : Z := Z.of_nat (length s).

(** [s[i]] for a C string: past its last character sits the terminator. *)
Definition char_at (s : cstring) (i : nat) : ascii := nth i s NUL.

(** The C string held by a buffer: its characters up to the first NUL. *)
Fixpoint cstr (b : buffer) : cstring :=
  match b with
  | [] => []
  | c :: b' => if Ascii.eqb c NUL then [] else c :: cstr b'
  end.

Definition code (c : ascii) : Z := Z.of_N (N_of_ascii c).

(** ** Formatted output: the conversions [%d] and [%x] *)

Definition digit_char (n : Z) : ascii :=
  ascii_of_N (Z.to_N (if n <? 10 then 48 + n else 87 + n)).

Fixpoint fmt_pos (base : Z) (fuel : nat) (n : Z) (acc : cstring) : cstring :=
  let acc' := digit_char (n mod base) :: acc in
  match fuel with
  | O => acc'
  | S fuel' => if n / base =? 0 then acc' else fmt_pos base fuel' (n / base) acc'
  end.

(** [%d] of an [int]. *)
Definition fmt_d (n : Z) : cstring :=
  if n <? 0 then "-"%char :: fmt_pos 10 (Z.to_nat (Z.log2 (- n))) (- n) []
  else fmt_pos 10 (Z.to_nat (Z.log2 n)) n [].

(** [%x] of an [unsigned int]; a negative [int] argument is read modulo 2^32. *)
Definition fmt_x (n : Z) : cstring :=
  let u := n mod 2 ^ 32 in fmt_pos 16 (Z.to_nat (Z.log2 u)) u [].

(** Conversion of an [int] to [size_t] (64 bits). *)
Definition size_t_of_int (n : Z) : Z := if n <? 0 then n + 2 ^ 64 else n.

(** [snprintf(mem + off, size, ...)] where the format expands to [s]:
    at most [size - 1] characters of [s] and a NUL are stored, nothing when
    [size] is 0; the value returned is the length of [s]. *)
Definition snprintf (mem : buffer) (off size : Z) (s : cstring) : buffer * Z :=
  let n := size_t_of_int size in
  (if n =? 0 then mem
   else list_inserts (Z.to_nat off) (take (Z.to_nat (n - 1)) s ++ [NUL]) mem,
   strlen s).

(** ** The C library's [inet_pton]

    The program calls [inet_pton] of the C library.  The model below follows
    the GNU C library: dotted decimal with one to three digits per octet, no
    leading zero and no octet above 255 for [AF_INET]; hexadecimal groups,
    one [::] and an optional trailing dotted quad for [AF_INET6]. *)

Definition AF_INET : Z := 2.
Definition AF_INET6 : Z := 10.

Definition is_digit (c : ascii) : bool := (48 <=? code c) && (code c <=? 57).

Definition hex_digit_value (c : ascii) : option Z :=
  let k := code c in
  if (48 <=? k) && (k <=? 57) then Some (k - 48)
  else if (97 <=? k) && (k <=? 102) then Some (k - 87)
  else if (65 <=? k) && (k <=? 70) then Some (k - 55)
  else None.

(** [done] holds the octets before [tp], [cur] is [*tp]. *)
Fixpoint inet_pton4_loop (src : cstring) (saw_digit : bool) (octets : Z)
    (done : list Z) (cur : Z) : option (list Z) :=
  match src with
  | [] => if octets <? 4 then None else Some (done ++ [cur])
  | ch :: src' =>
      if is_digit ch then
        let new := cur * 10 + (code ch - 48) in
        if saw_digit && (cur =? 0) then None
        else if new >? 255 then None
        else if saw_digit then inet_pton4_loop src' true octets done new
        else if octets + 1 >? 4 then None
        else inet_pton4_loop src' true (octets + 1) done new
      else if Ascii.eqb ch "."%char && saw_digit then
        if octets =? 4 then None
        else inet_pton4_loop src' false octets (done ++ [cur]) 0
      else None
  end.

Definition inet_pton4 (src : cstring) : option (list Z) :=
  inet_pton4_loop src false 0 [] 0.

(** The state of the [AF_INET6] scanner when its loop is left: the bytes
    stored so far, the position of [::] if seen, the number of hexadecimal
    digits of the pending group and its value. *)
Definition pton6_state : Type := list Z * option nat * Z * Z.

Definition store16 (out : list Z) (val : Z) : list Z :=
  out ++ [Z.land (Z.shiftr val 8) 255; Z.land val 255].

Fixpoint inet_pton6_loop (src curtok : cstring) (out : list Z)
    (colonp : option nat) (seen val : Z) : option pton6_state :=
  match src with
  | [] => Some (out, colonp, seen, val)
  | ch :: src' =>
      match hex_digit_value ch with
      | Some digit =>
          if seen =? 4 then None
          else
            let val' := Z.lor (Z.shiftl val 4) digit in
            if val' >? 65535 then None
            else inet_pton6_loop src' curtok out colonp (seen + 1) val'
      | None =>
          if Ascii.eqb ch ":"%char then
            if seen =? 0 then
              match colonp with
              | Some _ => None
              | None => inet_pton6_loop src' src' out (Some (length out)) seen val
              end
            else
              match src' with
              | [] => None
              | _ =>
                  if (16 <? Z.of_nat (length out) + 2) then None
                  else inet_pton6_loop src' src' (store16 out val) colonp 0 0
              end
          else if Ascii.eqb ch "."%char && (Z.of_nat (length out) + 4 <=? 16) then
            match inet_pton4 curtok with
            | Some quad => Some (out ++ quad, colonp, 0, val)
            | None => None
            end
          else None
      end
  end.

Definition inet_pton6 (src : cstring) : option (list Z) :=
  match src with
  | [] => None
  | c0 :: rest =>
      let start :=
        if Ascii.eqb c0 ":"%char then
          match rest with
          | c1 :: _ => if Ascii.eqb c1 ":"%char then Some rest else None
          | [] => None
          end
        else Some src in
      st ← start;
      '(out, colonp, seen, val) ← inet_pton6_loop st st [] None 0 0;
      out ← (if 0 <? seen then
               if 16 <? Z.of_nat (length out) + 2 then None
               else Some (store16 out val)
             else Some out);
      out ← match colonp with
            | Some k =>
                if Z.of_nat (length out) =? 16 then None
                else Some (take k out ++ replicate (16 - length out) 0 ++ drop k out)
            | None => Some out
            end;
      if Z.of_nat (length out) =? 16 then Some out else None
  end.

(** [inet_pton(af, src, dst)]: [Some bytes] when it returns 1 and stores
    [bytes] at [dst], [None] for every other return value. *)
Definition inet_pton (af : Z) (src : cstring) : option (list Z) :=
  if af =? AF_INET then inet_pton4 src
  else if af =? AF_INET6 then inet_pton6 src
  else None.

(** ** [ip2revdns] *)

Section Ip2revdns.

(** The conversion from text to binary, as the C library provides it. *)
Variable pton : Z → cstring → option (list Z).

(** [ip6.s6_addr[i]] *)
Definition s6_addr (ip6 : list Z) (i : nat) : Z := nth i ip6 0.

Definition is_dot (c : ascii) : bool := Ascii.eqb c "."%char.

Definition ipfamily_of (orig : cstring) : Z :=
  if is_dot (char_at orig 1) || is_dot (char_at orig 2) || is_dot (char_at orig 3)
  then AF_INET else AF_INET6.

(** The two labels of one address byte, ["%x.%x."]. *)
Definition nibble_labels (b : Z) : cstring :=
  fmt_x (Z.land b 15) ++ lit "." ++ fmt_x (Z.shiftr b 4) ++ lit ".".

(** The loop [for (i = 15; i >= 0; i--)], with [n = i + 1]: [inl] when the
    loop runs to its end, [inr] when it returns. *)
Fixpoint ip6_loop (n : nat) (ip6 : list Z) (res : buffer) (reslen rlen : Z)
    : buffer * Z + Z * buffer :=
  match n with
  | O => inl (res, rlen)
  | S i =>
      let '(res1, k) := snprintf res rlen (reslen - rlen) (nibble_labels (s6_addr ip6 i)) in
      let rlen1 := rlen + k in
      if rlen1 >=? reslen then inr (-1, <[0%nat := NUL]> res1)
      else ip6_loop i ip6 res1 reslen rlen1
  end.

Definition ip4_name (ip6 : list Z) : cstring :=
  fmt_d (s6_addr ip6 3) ++ lit "." ++ fmt_d (s6_addr ip6 2) ++ lit "."
  ++ fmt_d (s6_addr ip6 1) ++ lit "." ++ fmt_d (s6_addr ip6 0) ++ lit ".in-addr.arpa".

(** [res] and [orig] are pointers: [None] is [NULL].  The result is the
    value returned and the memory behind [res] afterwards. *)
Definition ip2revdns (res : option buffer) (reslen : Z) (orig : option cstring)
    : Z * option buffer :=
  match res with
  | None => (-1, None)
  | Some res =>
      match orig with
      | None => (-1, Some (<[0%nat := NUL]> res))
      | Some orig =>
          if strlen orig <? 4 then (-1, Some (<[0%nat := NUL]> res))
          else
            let ipfamily := ipfamily_of orig in
            match pton ipfamily orig with
            | None => (-1, Some (<[0%nat := NUL]> res))
            | Some ip6 =>
                if ipfamily =? AF_INET then
                  (0, Some (fst (snprintf res 0 reslen (ip4_name ip6))))
                else
                  match ip6_loop 16 ip6 res reslen 0 with
                  | inr (r, res') => (r, Some res')
                  | inl (res1, rlen) =>
                      let '(res2, k) := snprintf res1 rlen (reslen - rlen) (lit "ip6.arpa") in
                      if rlen + k >=? reslen then (-1, Some (<[0%nat := NUL]> res2))
                      else (0, Some res2)
                  end
            end
      end
  end.

End Ip2revdns.

(** ** [rpp_getcontroller] *)

Definition C_IN : Z := 1.
Definition T_TXT : Z := 16.

Section Resolver.

(** The resolver library: the answer packet filled by [res_query], the
    parsed message handle and the resource records are its own types. *)
Context {packet ns_msg ns_rr : Type}.

(** [res_query(dname, class, type, answer, anslen)]: the value returned
    and the content of [answer]. *)
Variable res_query : cstring → Z → Z → Z → Z * packet.
(** [ns_initparse(answer, len, &msg)]: [Some msg] when it returns 0. *)
Variable ns_initparse : packet → Z → option ns_msg.
(** [ns_msg_count(msg, ns_s_an)] *)
Variable ns_msg_count : ns_msg → Z.
(** [ns_parserr(&msg, ns_s_an, i, &rr)]: [Some rr] when it returns 0. *)
Variable ns_parserr : ns_msg → Z → option ns_rr.
(** [ns_rr_rdata(rr)]: the memory from the record's data pointer to the
    end of the answer array. *)
Variable ns_rr_rdata : ns_rr → list ascii.

(** Results are [option]: [None] stands for undefined behaviour, a read
    past the answer array or a [memcpy] of negative length. *)

(** The test [rdata[1] != 'R' || rdata[2] != 'D' || rdata[3] != 'E' ||
    rdata[4] != ':'], evaluated left to right. *)
Definition not_rde (rdata : list ascii) : option bool :=
  c1 ← rdata !! 1%nat;
  if negb (Ascii.eqb c1 "R"%char) then Some true else
  c2 ← rdata !! 2%nat;
  if negb (Ascii.eqb c2 "D"%char) then Some true else
  c3 ← rdata !! 3%nat;
  if negb (Ascii.eqb c3 "E"%char) then Some true else
  c4 ← rdata !! 4%nat;
  Some (negb (Ascii.eqb c4 ":"%char)).

(** [memcpy(dst, src + off, n)] *)
Definition memcpy (dst : buffer) (src : list ascii) (off : nat) (n : Z) : option buffer :=
  if n <? 0 then None
  else if Z.of_nat (length src) <? Z.of_nat off + n then None
  else Some (list_inserts 0 (take (Z.to_nat n) (drop off src)) dst).

(** The body executed for a record that carries the tag. *)
Definition copy_controller (result : buffer) (maxres : Z) (rdata : list ascii)
    : option (Z * buffer) :=
  len ← rdata !! 0%nat;
  let maxres := if code len <? maxres then code len else maxres in
  let maxres := maxres - 4 in
  result ← memcpy result rdata 5 maxres;
  Some (0, <[Z.to_nat maxres := NUL]> result).

(** The loop [for (i = 0; i < msg_count; i++)], [n] iterations left. *)
Fixpoint answers_loop (n : nat) (i : Z) (msg : ns_msg) (result : buffer) (maxres : Z)
    : option (Z * buffer) :=
  match n with
  | O => Some (1, result)
  | S n' =>
      match ns_parserr msg i with
      | None => Some (-4, result)
      | Some rr =>
          skip ← not_rde (ns_rr_rdata rr);
          if skip : bool then answers_loop n' (i + 1) msg result maxres
          else copy_controller result maxres (ns_rr_rdata rr)
      end
  end.

Definition rpp_getcontroller (result : buffer) (maxres : Z) (revname : cstring)
    : option (Z * buffer) :=
  let '(i, answer) := res_query revname C_IN T_TXT 512 in
  if i <? 0 then Some (1, result)
  else
    match ns_initparse answer i with
    | None => Some (-3, result)
    | Some msg =>
        let msg_count := ns_msg_count msg in
        if msg_count =? 0 then Some (1, result)
        else answers_loop (Z.to_nat msg_count) 0 msg result maxres
    end.

End Resolver.

(** ** The operating system: sockets and standard output *)

Inductive event : Type :=
  | Socket (domain type protocol ret : Z)
  | Connect (fd sin_family sin_addr : Z) (sin_port : list Z) (ret : Z)
  | Send (fd : Z) (data : list ascii) (flags ret : Z)
  | Close (fd : Z)
  | Stdout (text : cstring).

(** The world around a run: the results the system will give to the calls
    still to come, each a return value with the [errno] of a failure, the
    current [errno], and the events so far, oldest first. *)
Record os : Type := mkOs {
  script : list (Z * Z);
  errno : Z;
  trace : list event
}.

Definition log (e : event) (w : os) : os :=
  mkOs (script w) (errno w) (trace w ++ [e]).

(** The next scripted result; a failing call sets [errno]. *)
Definition sys_result (w : os) : Z * os :=
  match script w with
  | [] => (-1, w)
  | (r, e) :: rest => (r, mkOs rest (if r <? 0 then e else errno w) (trace w))
  end.

Definition PF_INET : Z := 2.
Definition SOCK_STREAM : Z := 1.
Definition IPPROTO_TCP : Z := 6.
Definition MSG_MORE : Z := 32768.

Definition socket (domain type protocol : Z) (w : os) : Z * os :=
  let '(r, w) := sys_result w in (r, log (Socket domain type protocol r) w).

Definition connect (fd sin_family sin_addr : Z) (sin_port : list Z) (w : os) : Z * os :=
  let '(r, w) := sys_result w in (r, log (Connect fd sin_family sin_addr sin_port r) w).

(** [send(fd, buf, len, flags)] *)
Definition send (fd : Z) (buf : list ascii) (len flags : Z) (w : os) : Z * os :=
  let '(r, w) := sys_result w in (r, log (Send fd (take (Z.to_nat len) buf) flags r) w).

Definition close (fd : Z) (w : os) : os := log (Close fd) w.

(** [printf] and [puts], the text already formatted. *)
Definition printf (text : cstring) (w : os) : os := log (Stdout text) w.
Definition puts (text : cstring) (w : os) : os := log (Stdout (text ++ [LF])) w.

(** [htons]: the two bytes of the port in network order. *)
Definition htons (p : Z) : list Z := [Z.land (Z.shiftr p 8) 255; Z.land p 255].

(** The conversion [(unsigned)] of a [size_t]. *)
Definition to_unsigned (n : Z) : Z := n mod 2 ^ 32.

(** The bytes a socket has carried: of each [send], the part accepted. *)
Fixpoint sent_bytes (fd : Z) (tr : list event) : list ascii :=
  match tr with
  | [] => []
  | Send fd' data _ ret :: tr' =>
      (if fd' =? fd then take (Z.to_nat ret) data else []) ++ sent_bytes fd tr'
  | _ :: tr' => sent_bytes fd tr'
  end.

(** ** [advertise_inpref_to_remote_dst] *)

Section Advertise.

Variable inet_addr : cstring → Z.
Variable strerror : Z → cstring.

Definition send_failed (servstringaddr : cstring) (w : os) : os :=
  printf (lit "ERROR: failed to send routing prefs to " ++ servstringaddr
          ++ lit " (" ++ strerror (errno w) ++ lit ")" ++ [LF]) w.

Definition advertise_inpref_to_remote_dst (locpreflist : cstring) (ttl : Z)
    (servstringaddr preflist : cstring) (w : os) : Z * os :=
  let sin_family := AF_INET in
  let sin_addr := inet_addr servstringaddr in
  let sin_port := htons 4343 in
  let '(sock, w) := socket PF_INET SOCK_STREAM IPPROTO_TCP w in
  if sock <? 0 then
    (-1, printf (lit "ERROR: socket() call failed (" ++ strerror (errno w) ++ lit ")" ++ [LF]) w)
  else
  let '(r, w) := connect sock sin_family sin_addr sin_port w in
  if r <? 0 then
    (-2, printf (lit "ERROR: connection to the remote controller failed ("
                 ++ strerror (errno w) ++ lit ")" ++ [LF]) w)
  else
  let buff := lit "SETINPREF " ++ fmt_d ttl ++ [TAB] in
  let bufflen := strlen buff in
  let '(r, w) := send sock buff bufflen MSG_MORE w in
  if negb (r =? bufflen) then (-3, close sock (send_failed servstringaddr w))
  else
  let '(r, w) := send sock locpreflist (strlen locpreflist) MSG_MORE w in
  if negb (r =? to_unsigned (strlen locpreflist)) then
    (-4, close sock (send_failed servstringaddr w))
  else
  let '(r, w) := send sock [TAB] 1 MSG_MORE w in
  if negb (r =? 1) then (-5, close sock (send_failed servstringaddr w))
  else
  let '(r, w) := send sock preflist (strlen preflist) MSG_MORE w in
  if negb (r =? to_unsigned (strlen preflist)) then
    (-6, close sock (send_failed servstringaddr w))
  else
  let '(r, w) := send sock [CR; LF] 2 0 w in
  if negb (r =? 2) then (-7, close sock (send_failed servstringaddr w))
  else (0, close sock w).

End Advertise.

(** ** [main] *)

Definition PVER : string := "20160429".
Definition PDATE : string := "2016".

Definition RESOLVE : Z := 0.
Definition ADVERTISE : Z := 1.

(** Lines of text joined by newlines, each line ended by one. *)
Definition text_lines (ls : list string) : cstring :=
  concat (map (λ l, lit l ++ [LF]) ls).

Definition printhelp (w : os) : os :=
  let w := printf (text_lines [
    ("rpp version " ++ PVER ++ " Copyright (C) " ++ PDATE ++ " Border 6 S.A.S")%string;
    "";
    "rpp is a simple tool that allows to resolve and interact with remote RDE";
    "controllers.";
    "";
    "usage: rpp resolve|advertise remoteprefix [localprefixes preflist]";
    "";
    "where:";
    "'localprefixes' is the list of the prefixes advertised by the local AS.";
    "";
    "'preflist' is to be provided only for the 'advertise' action. it should";
    "be a single argument that contains the list of preffered ASes with weights to";
    "be advertised to the remote controller.";
    "" ]%string) w in
  printf (text_lines [
    "examples:";
    "  rpp resolve 203.0.113.0/24";
    "  rpp advertise 203.0.113.0/24 '192.0.2.0/24 198.51.100.0/24' '64552:0 64900:255 65001:127'";
    "" ]%string) w.

(** The loop that copies [prefixorg] into [prefix] up to a ['/'], the end of
    the string or [n] characters. *)
Fixpoint cut_prefix (n : nat) (prefixorg : cstring) : cstring :=
  match n, prefixorg with
  | S n', c :: rest => if Ascii.eqb c "/"%char then [] else c :: cut_prefix n' rest
  | _, _ => []
  end.

(** [strcmp(a, b) == 0] *)
Fixpoint streq (a b : cstring) : bool :=
  match a, b with
  | [], [] => true
  | x :: a', y :: b' => Ascii.eqb x y && streq a' b'
  | _, _ => false
  end.

Section Main.

Context {packet ns_msg ns_rr : Type}.
Variable pton : Z → cstring → option (list Z).
Variable res_query : cstring → Z → Z → Z → Z * packet.
Variable ns_initparse : packet → Z → option ns_msg.
Variable ns_msg_count : ns_msg → Z.
Variable ns_parserr : ns_msg → Z → option ns_rr.
Variable ns_rr_rdata : ns_rr → list ascii.
Variable inet_addr : cstring → Z.
Variable strerror : Z → cstring.

(** The arguments once the command line is validated. *)
Definition parse_args (argv : list cstring) : option (Z * cstring * cstring * cstring) :=
  match argv with
  | [_; cmd; prefixorg] =>
      if streq cmd (lit "resolve") then Some (RESOLVE, prefixorg, [], []) else None
  | [_; cmd; prefixorg; locpreflist; preflist] =>
      if streq cmd (lit "advertise") then Some (ADVERTISE, prefixorg, locpreflist, preflist)
      else None
  | _ => None
  end.

(** [revdns0] and [rdeaddr0] are what the arrays [revdns] and [rdeaddr]
    hold when [main] is entered.  The result is the exit status and the
    world at exit; [None] is undefined behaviour. *)
Definition main (argv : list cstring) (revdns0 rdeaddr0 : buffer) (w : os)
    : option (Z * os) :=
  match parse_args argv with
  | None => Some (1, printhelp w)
  | Some (action, prefixorg, locpreflist, preflist) =>
      let prefix := cut_prefix 127 prefixorg in
      match ip2revdns pton (Some revdns0) 128 (Some prefix) with
      | (_, None) => None
      | (r, Some revdns) =>
          if negb (r =? 0) then
            Some (1, printf (lit "ERROR: failed to compute a reverse DNS for '"
                             ++ prefixorg ++ lit "'" ++ [LF]) w)
          else
            '(i, rdeaddr) ← rpp_getcontroller res_query ns_initparse ns_msg_count
                              ns_parserr ns_rr_rdata rdeaddr0 128 (cstr revdns);
            let w :=
              if i =? 0 then
                printf (lit "RDE controller for " ++ prefixorg ++ lit " is "
                        ++ cstr rdeaddr ++ [LF]) w
              else if i >? 0 then
                printf (lit "No RDE entry found for " ++ prefixorg ++ [LF]) w
              else
                printf (lit "ERROR: DNS failure (" ++ fmt_d i ++ lit ")" ++ [LF]) w in
            if action =? RESOLVE then Some (0, w)
            else
              let w := puts (lit "Sending preferences...") w in
              let '(r, w) := advertise_inpref_to_remote_dst inet_addr strerror
                               locpreflist 3600 (cstr rdeaddr) preflist w in
              let w := if r =? 0 then puts (lit "Done.") w else w in
              Some (0, w)
      end
  end.

End Main.

(** A concrete resolver for examples: the packet is the outcome of the
    query, the records are their data. *)
Inductive sample_packet : Type :=
  | NoAnswer
  | Garbled
  | Records (rrs : list (option (list ascii))).

Definition sample_query (p : sample_packet) : cstring → Z → Z → Z → Z * sample_packet :=
  λ _ _ _ _, (match p with NoAnswer => -1 | _ => 64 end, p).

Definition sample_initparse (p : sample_packet) (len : Z) : option (list (option (list ascii))) :=
  match p with
  | Records rrs => Some rrs
  | _ => None
  end.

Definition sample_count (rrs : list (option (list ascii))) : Z := Z.of_nat (length rrs).

Definition sample_parserr (rrs : list (option (list ascii))) (i : Z) : option (list ascii) :=
  mjoin (rrs !! Z.to_nat i).

(** A TXT record holding one character-string. *)
Definition txt (s : string) : list ascii :=
  ascii_of_nat (String.length s) :: lit s.

Definition sample_getcontroller (p : sample_packet) :=
  rpp_getcontroller (sample_query p) sample_initparse sample_count sample_parserr id.

Definition sample_inet_addr (s : cstring) : Z := 0.

Definition sample_strerror (e : Z) : cstring :=
  if e =? 111 then lit "Connection refused" else lit "Unknown error".

Definition sample_main (p : sample_packet) :=
  main inet_pton (sample_query p) sample_initparse sample_count sample_parserr id
    sample_inet_addr sample_strerror.

Definition blank (n : nat) : buffer := replicate n "#"%char.


(** ** Reference renderings used in the statements *)

Definition byte (a : Z) : Prop := 0 ≤ a < 256.

(** The text [a.b.c.d] of four address bytes. *)
Definition dotted_quad (a b c d : Z) : cstring :=
  fmt_d a ++ lit "." ++ fmt_d b ++ lit "." ++ fmt_d c ++ lit "." ++ fmt_d d.

(** One hexadecimal digit as a label. *)
Definition hex_label (n : Z) : ascii := nth (Z.to_nat n) (lit "0123456789abcdef") NUL.

(** The [ip6.arpa] name in the spec's words: the bytes last first, of each
    byte the low nibble then the high nibble, a dot after every label, then
    the suffix. *)
Definition spec_ip6_name (ip : list Z) : cstring :=
  concat (map (λ b, [hex_label (b mod 16); "."%char; hex_label (b / 16); "."%char])
              (reverse ip))
  ++ lit "ip6.arpa".

(** A literal dot at character index 1, 2 or 3. *)
Definition dot_at_1_3 (orig : cstring) : Prop :=
  orig !! 1%nat = Some "."%char ∨ orig !! 2%nat = Some "."%char ∨ orig !! 3%nat = Some "."%char.

(** The bytes at offsets 1 to 4 of a record's data are [R], [D], [E], [:]. *)
Definition has_tag (rdata : list ascii) : Prop :=
  rdata !! 1%nat = Some "R"%char ∧ rdata !! 2%nat = Some "D"%char
  ∧ rdata !! 3%nat = Some "E"%char ∧ rdata !! 4%nat = Some ":"%char.

(** Record [j] of the answer section parses, has its five leading bytes
    inside the answer array and does not carry the tag. *)
Definition skipped_record {ns_msg ns_rr : Type} (ns_parserr : ns_msg → Z → option ns_rr)
    (ns_rr_rdata : ns_rr → list ascii) (msg : ns_msg) (j : Z) : Prop :=
  ∃ rr, ns_parserr msg j = Some rr
        ∧ (5 ≤ length (ns_rr_rdata rr))%nat ∧ ¬ has_tag (ns_rr_rdata rr).

(** The labels written by the last [n] rounds of the loop of [ip2revdns]. *)
Fixpoint ip6_labels (n : nat) (ip6 : list Z) : cstring :=
  match n with
  | O => []
  | S i => nibble_labels (s6_addr ip6 i) ++ ip6_labels i ip6
  end.

(** The digits that [inet_pton] accepts for one octet of value [a]. *)
Definition octet_digits (ds : list ascii) (a : Z) : bool :=
  match ds with
  | [d1] => is_digit d1 && (code d1 - 48 =? a)
  | [d1; d2] =>
      is_digit d1 && is_digit d2 && negb (code d1 - 48 =? 0)
      && ((code d1 - 48) * 10 + (code d2 - 48) =? a)
  | [d1; d2; d3] =>
      is_digit d1 && is_digit d2 && is_digit d3 && negb (code d1 - 48 =? 0)
      && (((code d1 - 48) * 10 + (code d2 - 48)) * 10 + (code d3 - 48) =? a)
      && (a <=? 255)
  | _ => false
  end.

(** The world once [main] has reported the outcome [i] of the resolution
    and announced the advertisement. *)
Definition resolution_reported (prefixorg : cstring) (i : Z) (rdeaddr : buffer) (w : os) : os :=
  puts (lit "Sending preferences...")
    (if i =? 0 then
       printf (lit "RDE controller for " ++ prefixorg ++ lit " is " ++ cstr rdeaddr ++ [LF]) w
     else if i >? 0 then
       printf (lit "No RDE entry found for " ++ prefixorg ++ [LF]) w
     else
       printf (lit "ERROR: DNS failure (" ++ fmt_d i ++ lit ")" ++ [LF]) w).

(** The two texts of the help, character for character. *)
Definition help_text : cstring := lit
"rpp version 20160429 Copyright (C) 2016 Border 6 S.A.S

rpp is a simple tool that allows to resolve and interact with remote RDE
controllers.

usage: rpp resolve|advertise remoteprefix [localprefixes preflist]

where:
'localprefixes' is the list of the prefixes advertised by the local AS.

'preflist' is to be provided only for the 'advertise' action. it should
be a single argument that contains the list of preffered ASes with weights to
be advertised to the remote controller.

".

Definition help_examples : cstring := lit
"examples:
  rpp resolve 203.0.113.0/24
  rpp advertise 203.0.113.0/24 '192.0.2.0/24 198.51.100.0/24' '64552:0 64900:255 65001:127'

".

(** The number of calls of [send] among some events. *)
Fixpoint count_sends (tr : list event) : nat :=
  match tr with
  | [] => 0
  | Send _ _ _ _ :: tr' => S (count_sends tr')
  | _ :: tr' => count_sends tr'
  end.

(** The message of the wire protocol. *)
Definition setinpref (ttl : Z) (locpreflist preflist : list ascii) : list ascii :=
  lit "SETINPREF " ++ fmt_d ttl ++ [TAB] ++ locpreflist ++ [TAB] ++ preflist ++ [CR; LF].

(** * Properties *)

(** ** The model at work *)

Example fmt_d_203 : fmt_d 203 = lit "203".
Proof. reflexivity. Qed.

Example fmt_d_minus_3 : fmt_d (-3) = lit "-3".
Proof. reflexivity. Qed.

Example fmt_x_15 : fmt_x 15 = lit "f".
Proof. reflexivity. Qed.

Example inet_pton4_doc : inet_pton4 (lit "203.0.113.1") = Some [203; 0; 113; 1].
Proof. reflexivity. Qed.

Example inet_pton4_leading_zero : inet_pton4 (lit "203.00.113.1") = None.
Proof. reflexivity. Qed.

Example inet_pton6_doc :
  inet_pton6 (lit "2001:db8::ff00:42:8329")
    = Some [32; 1; 13; 184; 0; 0; 0; 0; 0; 0; 255; 0; 0; 66; 131; 41].
Proof. reflexivity. Qed.

Example inet_pton6_full : inet_pton6 (lit "1:2:3:4:5:6:7:8")
    = Some [0; 1; 0; 2; 0; 3; 0; 4; 0; 5; 0; 6; 0; 7; 0; 8].
Proof. reflexivity. Qed.

Example inet_pton6_too_long : inet_pton6 (lit "1:2:3:4:5:6:7::8") = None.
Proof. reflexivity. Qed.

Example inet_pton6_single_colon : inet_pton6 (lit "1:") = None.
Proof. reflexivity. Qed.

Example cut_prefix_doc : cut_prefix 127 (lit "203.0.113.0/24") = lit "203.0.113.0".
Proof. reflexivity. Qed.

Example resolve_second_record :
  sample_getcontroller (Records [Some (txt "v=spf1 -all"); Some (txt "RDE:198.51.100.7")])
    (blank 128) 128 (lit "7.100.51.198.in-addr.arpa")
  = Some (0, lit "198.51.100.7" ++ NUL :: blank 115).
Proof. reflexivity. Qed.

(** The scenario of the documentation, from the command line to the wire. *)
Example end_to_end :
  option_map (λ '(st, w), (st, sent_bytes 3 (trace w)))
    (sample_main (Records [Some (txt "RDE:192.0.2.55")])
       [lit "rpp"; lit "advertise"; lit "203.0.113.0/24";
        lit "192.0.2.0/24 198.51.100.0/24"; lit "64552:0 64900:255 65001:127"]
       (blank 128) (blank 128)
       (mkOs [(3, 0); (0, 0); (15, 0); (28, 0); (1, 0); (27, 0); (2, 0)] 0 []))
  = Some (0, setinpref 3600 (lit "192.0.2.0/24 198.51.100.0/24")
               (lit "64552:0 64900:255 65001:127")).
Proof. reflexivity. Qed.


(** ** Memory and strings *)

Lemma list_inserts_middle {A} (mem k : list A) (off : nat) :
  (off + length k ≤ length mem)%nat →
  list_inserts off k mem = take off mem ++ k ++ drop (off + length k) mem.
Proof.
  intros Hlen.
  rewrite <- (take_drop off mem) at 1.
  assert (Hoff : length (take off mem) = off) by (rewrite length_take; lia).
  rewrite <- Hoff at 1.
  replace (length (take off mem)) with (length (take off mem) + 0)%nat by lia.
  rewrite list_inserts_app_r. f_equal.
  rewrite <- (take_drop (length k) (drop off mem)) at 1.
  rewrite list_inserts_0_r.
  - by rewrite drop_drop.
  - rewrite length_take, length_drop. lia.
Qed.

Lemma cstr_app_nul (s rest : list ascii) :
  Forall (λ c, c ≠ NUL) s → cstr (s ++ NUL :: rest) = s.
Proof.
  induction 1 as [|c s Hc _ IH]; simpl; [done|].
  destruct (Ascii.eqb c NUL) eqn:E.
  - by apply Ascii.eqb_eq in E.
  - by rewrite IH.
Qed.

Lemma drop_after_nul (s rest : list ascii) :
  drop (length s + 1) (s ++ NUL :: rest) = rest.
Proof.
  rewrite cons_middle, app_assoc. apply drop_app_length'.
  rewrite length_app. simpl. lia.
Qed.

Lemma drop_after_nul' (s rest : list ascii) (n : nat) :
  n = (length s + 1)%nat → drop n (s ++ NUL :: rest) = rest.
Proof. intros ->. apply drop_after_nul. Qed.

Lemma snprintf_fits (mem : list ascii) (off size : Z) (s : list ascii) :
  0 ≤ off → strlen s < size → off + strlen s < Z.of_nat (length mem) →
  snprintf mem off size s =
    (take (Z.to_nat off) mem ++ s ++ NUL :: drop (Z.to_nat off + length s + 1) mem,
     strlen s).
Proof.
  unfold snprintf, strlen, size_t_of_int. intros Hoff Hsize Hmem.
  destruct (size <? 0) eqn:E1; [lia|].
  destruct (size =? 0) eqn:E2; [lia|]. f_equal.
  rewrite take_ge by lia.
  rewrite list_inserts_middle by (rewrite length_app; simpl; lia).
  rewrite <- app_assoc. simpl. rewrite length_app. simpl.
  by rewrite Nat.add_assoc.
Qed.

(** ** Decimal and hexadecimal digits *)

Lemma byte_forall (P : Z → bool) :
  forallb P (map Z.of_nat (seq 0 256)) = true → ∀ a, byte a → P a = true.
Proof.
  intros H a [Ha1 Ha2]. rewrite forallb_forall in H. apply H.
  apply in_map_iff. exists (Z.to_nat a). split; [lia|].
  apply in_seq. lia.
Qed.

Lemma fmt_d_octet (a : Z) : byte a → octet_digits (fmt_d a) a = true.
Proof. revert a. apply byte_forall. by vm_compute. Qed.

Lemma streq_eq (a b : list ascii) : streq a b = true → a = b.
Proof.
  revert b. induction a as [|x a IH]; intros [|y b] H; try discriminate H; [done|].
  cbn [streq] in H. apply andb_true_iff in H as [Hx Hab].
  apply Ascii.eqb_eq in Hx. f_equal; [done|by apply IH].
Qed.

(** On bytes [%d] prints the decimal numeral of the standard library. *)
Lemma fmt_d_decimal (a : Z) :
  byte a → fmt_d a = lit (NilZero.string_of_int (Z.to_int a)).
Proof.
  intros Ha. apply streq_eq. revert a Ha. apply byte_forall. by vm_compute.
Qed.

Lemma fmt_d_no_nul (a : Z) : byte a → Forall (λ c, c ≠ NUL) (fmt_d a).
Proof.
  intros Ha.
  assert (H : forallb (λ c, negb (Ascii.eqb c NUL)) (fmt_d a) = true).
  { revert a Ha. apply byte_forall. by vm_compute. }
  rewrite forallb_forall in H. apply Forall_forall. intros c Hc.
  apply list_elem_of_In, H in Hc. destruct (Ascii.eqb c NUL) eqn:E; [done|].
  by apply Ascii.eqb_neq in E.
Qed.

Lemma fmt_x_nibble (n : Z) : 0 ≤ n < 16 → fmt_x n = [hex_label n].
Proof.
  intros Hn.
  assert (H : forallb (λ n, match fmt_x n with
                            | [c] => Ascii.eqb c (hex_label n)
                            | _ => false
                            end) (map Z.of_nat (seq 0 16)) = true) by by vm_compute.
  rewrite forallb_forall in H.
  specialize (H n). destruct (fmt_x n) as [|c [|]].
  - discriminate H. apply in_map_iff. exists (Z.to_nat n). split; [lia|]. apply in_seq. lia.
  - f_equal. apply Ascii.eqb_eq, H. apply in_map_iff. exists (Z.to_nat n).
    split; [lia|]. apply in_seq. lia.
  - discriminate H. apply in_map_iff. exists (Z.to_nat n). split; [lia|]. apply in_seq. lia.
Qed.

Lemma hex_label_no_nul (n : Z) : 0 ≤ n < 16 → hex_label n ≠ NUL.
Proof.
  intros Hn.
  assert (H : forallb (λ n, negb (Ascii.eqb (hex_label n) NUL)) (map Z.of_nat (seq 0 16)) = true)
    by by vm_compute.
  rewrite forallb_forall in H. specialize (H n).
  destruct (Ascii.eqb (hex_label n) NUL) eqn:E.
  - discriminate H. apply in_map_iff. exists (Z.to_nat n). split; [lia|]. apply in_seq. lia.
  - by apply Ascii.eqb_neq in E.
Qed.

Lemma nibble_labels_byte (b : Z) :
  byte b →
  nibble_labels b = [hex_label (b mod 16); "."%char; hex_label (b / 16); "."%char].
Proof.
  intros [Hb1 Hb2]. unfold nibble_labels.
  change 15 with (Z.ones 4). rewrite Z.land_ones by lia. rewrite Z.shiftr_div_pow2 by lia.
  change (2 ^ 4) with 16.
  rewrite !fmt_x_nibble; [done| |].
  - split; [apply Z.div_pos; lia | apply Z.div_lt_upper_bound; lia].
  - apply Z.mod_pos_bound. lia.
Qed.

(** ** The model of [inet_pton] *)

Ltac bool_Z :=
  repeat match goal with
  | H : (_ && _) = true |- _ => apply andb_true_iff in H; destruct H
  | H : negb _ = true |- _ => apply negb_true_iff in H
  | H : negb _ = false |- _ => apply negb_false_iff in H
  | H : (_ <=? _) = true |- _ => apply Z.leb_le in H
  | H : (_ <=? _) = false |- _ => apply Z.leb_gt in H
  | H : (_ <? _) = true |- _ => apply Z.ltb_lt in H
  | H : (_ <? _) = false |- _ => apply Z.ltb_ge in H
  | H : (_ =? _) = true |- _ => apply Z.eqb_eq in H
  | H : (_ =? _) = false |- _ => apply Z.eqb_neq in H
  | H : (_ >? _) = true |- _ => rewrite Z.gtb_ltb in H; apply Z.ltb_lt in H
  | H : (_ >? _) = false |- _ => rewrite Z.gtb_ltb in H; apply Z.ltb_ge in H
  | H : (_ >=? _) = true |- _ => rewrite Z.geb_leb in H; apply Z.leb_le in H
  | H : (_ >=? _) = false |- _ => rewrite Z.geb_leb in H; apply Z.leb_gt in H
  end.

Lemma is_digit_range (c : ascii) : is_digit c = true → 0 ≤ code c - 48 ≤ 9.
Proof. unfold is_digit. intros H. bool_Z. lia. Qed.

(** One step of the [AF_INET] scanner on a digit. *)
Lemma inet_pton4_loop_digit (ch : ascii) (src : list ascii) (saw : bool) (octets : Z)
    (done : list Z) (cur : Z) :
  is_digit ch = true → (saw = true → cur ≠ 0) →
  cur * 10 + (code ch - 48) ≤ 255 → octets < 4 ∨ saw = true →
  inet_pton4_loop (ch :: src) saw octets done cur =
    inet_pton4_loop src true (if saw then octets else octets + 1) done
      (cur * 10 + (code ch - 48)).
Proof.
  intros Hd Hcur Hnew Hoct. cbn [inet_pton4_loop]. rewrite Hd.
  destruct saw; cbn [andb].
  - destruct (cur =? 0) eqn:E; bool_Z; [by destruct Hcur|].
    destruct (_ >? 255) eqn:E2; bool_Z; [lia|done].
  - destruct (_ >? 255) eqn:E2; bool_Z; [lia|].
    destruct (_ >? 4) eqn:E3; bool_Z; [|done]. destruct Hoct; [lia|done].
Qed.

Lemma inet_pton4_loop_octet (ds rest : list ascii) (a octets : Z) (done : list Z) :
  octet_digits ds a = true → octets < 4 →
  inet_pton4_loop (ds ++ rest) false octets done 0 =
    inet_pton4_loop rest true (octets + 1) done a.
Proof.
  intros Hds Hoct.
  destruct ds as [|d1 [|d2 [|d3 [|]]]]; try discriminate Hds;
    cbn [octet_digits] in Hds; bool_Z;
    repeat match goal with
    | H : is_digit _ = true |- _ => pose proof (is_digit_range _ H); revert H
    end; intros; cbn [app].
  - rewrite inet_pton4_loop_digit by (done || lia || auto). by subst.
  - rewrite inet_pton4_loop_digit by (done || lia || auto).
    rewrite inet_pton4_loop_digit by (done || lia || auto). by subst.
  - rewrite inet_pton4_loop_digit by (done || lia || auto).
    rewrite inet_pton4_loop_digit by (done || lia || auto).
    rewrite inet_pton4_loop_digit by (done || lia || auto). by subst.
Qed.

Lemma inet_pton4_loop_dot (src : list ascii) (octets : Z) (done : list Z) (cur : Z) :
  octets < 4 →
  inet_pton4_loop ("."%char :: src) true octets done cur =
    inet_pton4_loop src false octets (done ++ [cur]) 0.
Proof.
  intros Hoct. cbn [inet_pton4_loop]. change (is_digit "."%char) with false.
  cbn [andb Ascii.eqb Bool.eqb]. destruct (octets =? 4) eqn:E; bool_Z; [lia|done].
Qed.

(** The text of four bytes converts back to them. *)
Lemma inet_pton4_dotted_quad (a b c d : Z) :
  byte a → byte b → byte c → byte d →
  inet_pton4 (dotted_quad a b c d) = Some [a; b; c; d].
Proof.
  intros Ha Hb Hc Hd. unfold inet_pton4, dotted_quad.
  change (lit ".") with ["."%char].
  rewrite (inet_pton4_loop_octet _ _ a) by (by apply fmt_d_octet || lia).
  cbn [app]. rewrite inet_pton4_loop_dot by lia.
  rewrite (inet_pton4_loop_octet _ _ b) by (by apply fmt_d_octet || lia).
  cbn [app]. rewrite inet_pton4_loop_dot by lia.
  rewrite (inet_pton4_loop_octet _ _ c) by (by apply fmt_d_octet || lia).
  cbn [app]. rewrite inet_pton4_loop_dot by lia.
  rewrite <- (app_nil_r (fmt_d d)).
  rewrite (inet_pton4_loop_octet _ _ d) by (by apply fmt_d_octet || lia).
  reflexivity.
Qed.

(** What a successful step of the [AF_INET] scanner tells. *)
Lemma inet_pton4_loop_step (ch : ascii) (src : list ascii) (saw : bool) (octets : Z)
    (done : list Z) (cur : Z) (ip : list Z) :
  inet_pton4_loop (ch :: src) saw octets done cur = Some ip →
  (is_digit ch = true ∧ (saw = true → cur ≠ 0) ∧ cur * 10 + (code ch - 48) ≤ 255
   ∧ (saw = false → octets < 4)
   ∧ inet_pton4_loop src true (if saw then octets else octets + 1) done
       (cur * 10 + (code ch - 48)) = Some ip)
  ∨ (ch = "."%char ∧ saw = true ∧ octets ≠ 4
     ∧ inet_pton4_loop src false octets (done ++ [cur]) 0 = Some ip).
Proof.
  cbn [inet_pton4_loop]. destruct (is_digit ch) eqn:Hd.
  - left. split; [done|]. destruct saw; cbn [andb] in *.
    + destruct (cur =? 0) eqn:E; [done|]. destruct (_ >? 255) eqn:E2; [done|].
      bool_Z. repeat split; (done || lia).
    + destruct (_ >? 255) eqn:E2; [done|]. destruct (_ >? 4) eqn:E3; [done|].
      bool_Z. repeat split; (done || lia).
  - right. destruct (Ascii.eqb ch "."%char) eqn:E; [|done].
    apply Ascii.eqb_eq in E. destruct saw; [|done]. cbn [andb] in *.
    destruct (octets =? 4) eqn:E4; [done|]. bool_Z. done.
Qed.

(** Whatever [inet_pton] accepts for [AF_INET] yields four bytes. *)
Lemma inet_pton4_loop_bytes (src : list ascii) (saw : bool) (octets : Z)
    (done : list Z) (cur : Z) (ip : list Z) :
  inet_pton4_loop src saw octets done cur = Some ip →
  Forall byte done → byte cur →
  Z.of_nat (length done) + (if saw then 1 else 0) = octets →
  (if saw then octets ≤ 4 else octets ≤ 3) →
  length ip = 4%nat ∧ Forall byte ip.
Proof.
  revert saw octets done cur.
  induction src as [|ch src IH]; intros saw octets done cur Hrun Hdone Hcur Hlen Hoct.
  - cbn [inet_pton4_loop] in Hrun. destruct (octets <? 4) eqn:E; [done|]. bool_Z.
    injection Hrun as <-. destruct saw; [|lia]. split.
    + rewrite length_app. simpl. lia.
    + apply Forall_app. split; [done|]. by constructor.
  - apply inet_pton4_loop_step in Hrun
      as [(Hd & Hnz & Hnew & Hlt & Hrun)|(-> & -> & Hne & Hrun)].
    + apply is_digit_range in Hd. apply IH in Hrun; [done|done| | |].
      * unfold byte in *. lia.
      * destruct saw; lia.
      * destruct saw; [lia|]. specialize (Hlt eq_refl). lia.
    + apply IH in Hrun; [done| | | |].
      * apply Forall_app. split; [done|]. by constructor.
      * unfold byte. lia.
      * rewrite length_app. simpl. lia.
      * lia.
Qed.

Lemma inet_pton4_bytes (src : list ascii) (ip : list Z) :
  inet_pton4 src = Some ip → length ip = 4%nat ∧ Forall byte ip.
Proof.
  intros H. apply inet_pton4_loop_bytes in H; [done|by constructor| | |].
  - unfold byte. lia.
  - simpl. lia.
  - lia.
Qed.

(** Whatever [inet_pton] accepts for [AF_INET] is at least four characters
    long and has its first dot at index 1, 2 or 3. *)
Lemma inet_pton4_shape (src : list ascii) (ip : list Z) :
  inet_pton4 src = Some ip → 4 ≤ strlen src ∧ dot_at_1_3 src.
Proof.
  unfold inet_pton4, dot_at_1_3, strlen. intros H.
  destruct src as [|c0 src]; [done|].
  apply inet_pton4_loop_step in H as [(D0 & _ & N0 & _ & H)|(_ & ? & _)]; [|done].
  destruct src as [|c1 src]; [done|].
  apply inet_pton4_loop_step in H as [(D1 & Z1 & N1 & _ & H)|(-> & _ & _ & H)].
  - destruct src as [|c2 src]; [done|].
    apply inet_pton4_loop_step in H as [(D2 & Z2 & N2 & _ & H)|(-> & _ & _ & H)].
    + destruct src as [|c3 src]; [done|].
      apply inet_pton4_loop_step in H as [(D3 & Z3 & N3 & _ & H)|(-> & _ & _ & H)].
      * apply is_digit_range in D0, D1, D2, D3. specialize (Z1 eq_refl). lia.
      * split; [simpl; lia|]. right. right. done.
    + split; [|right; left; done].
      destruct src as [|c3 src]; [done|]. simpl. lia.
  - split; [|left; done].
    destruct src as [|c2 src]; [done|].
    apply inet_pton4_loop_step in H as [(D2 & _ & N2 & _ & H)|(_ & ? & _)]; [|done].
    destruct src as [|c3 src]; [done|]. simpl. lia.
Qed.

Lemma land_255_byte (x : Z) : byte (Z.land x 255).
Proof.
  change 255 with (Z.ones 8). rewrite Z.land_ones by lia.
  unfold byte. change (2 ^ 8) with 256. apply Z.mod_pos_bound. lia.
Qed.

Lemma store16_bytes (out : list Z) (val : Z) : Forall byte out → Forall byte (store16 out val).
Proof.
  intros H. apply Forall_app. split; [done|].
  repeat constructor; apply land_255_byte.
Qed.

Lemma inet_pton6_loop_bytes (src curtok : list ascii) (out : list Z) (colonp : option nat)
    (seen val : Z) (st : pton6_state) :
  inet_pton6_loop src curtok out colonp seen val = Some st →
  Forall byte out → Forall byte (st.1.1.1).
Proof.
  revert curtok out colonp seen val.
  induction src as [|ch src IH]; intros curtok out colonp seen val Hrun Hout.
  - injection Hrun as <-. done.
  - cbn [inet_pton6_loop] in Hrun. destruct (hex_digit_value ch) as [digit|].
    + destruct (seen =? 4); [done|]. destruct (_ >? 65535); [done|]. by eapply IH.
    + destruct (Ascii.eqb ch ":"%char).
      * destruct (seen =? 0).
        -- destruct colonp; [done|]. by eapply IH.
        -- destruct src as [|c src']; [done|]. destruct (16 <? _); [done|].
           eapply IH; [done|]. by apply store16_bytes.
      * destruct (Ascii.eqb ch "."%char && _); [|done].
        destruct (inet_pton4 curtok) as [quad|] eqn:Hq; [|done].
        injection Hrun as <-. cbn [fst]. apply Forall_app. split; [done|].
        by apply inet_pton4_bytes in Hq as [_ ?].
Qed.

(** Whatever [inet_pton] accepts for [AF_INET6] yields sixteen bytes. *)
Lemma inet_pton6_bytes (src : list ascii) (ip : list Z) :
  inet_pton6 src = Some ip → length ip = 16%nat ∧ Forall byte ip.
Proof.
  unfold inet_pton6. destruct src as [|c0 rest]; [done|].
  intros H. apply bind_Some in H as (st & _ & H).
  apply bind_Some in H as ([[[out colonp] seen] val] & Hloop & H).
  apply inet_pton6_loop_bytes in Hloop; [|by constructor]. cbn [fst] in Hloop.
  apply bind_Some in H as (out1 & H1 & H).
  apply bind_Some in H as (out2 & H2 & H).
  destruct (Z.of_nat (length out2) =? 16) eqn:E; [|done]. bool_Z.
  injection H as <-. split; [lia|].
  assert (Hout1 : Forall byte out1).
  { destruct (0 <? seen); [|by injection H1 as <-].
    destruct (16 <? _); [done|]. injection H1 as <-. by apply store16_bytes. }
  destruct colonp as [k|]; [|by injection H2 as <-].
  destruct (_ =? 16); [done|]. injection H2 as <-.
  repeat apply Forall_app_2.
  - by apply Forall_take.
  - apply Forall_replicate. unfold byte. lia.
  - by apply Forall_drop.
Qed.

(** ** [ip2revdns]: family detection *)

Lemma is_dot_char_at (orig : list ascii) (i : nat) :
  is_dot (char_at orig i) = true ↔ orig !! i = Some "."%char.
Proof.
  unfold is_dot, char_at. rewrite nth_lookup. destruct (orig !! i) as [c|]; simpl.
  - rewrite Ascii.eqb_eq. split; congruence.
  - split; [intros H; discriminate H|done].
Qed.

Lemma ipfamily_of_dot (orig : list ascii) : dot_at_1_3 orig → ipfamily_of orig = AF_INET.
Proof.
  unfold dot_at_1_3, ipfamily_of. rewrite <- !is_dot_char_at.
  intros [H|[H|H]]; rewrite H; by rewrite ?orb_true_r.
Qed.

Lemma ipfamily_of_no_dot (orig : list ascii) : ¬ dot_at_1_3 orig → ipfamily_of orig = AF_INET6.
Proof.
  unfold dot_at_1_3, ipfamily_of. rewrite <- !is_dot_char_at.
  destruct (is_dot (char_at orig 1)), (is_dot (char_at orig 2)), (is_dot (char_at orig 3));
    simpl; intros H; try done; exfalso; apply H; auto.
Qed.

Lemma ip2revdns_ext (pton pton' : Z → list ascii → option (list Z)) (res : option (list ascii))
    (reslen : Z) (orig : list ascii) :
  pton' (ipfamily_of orig) orig = pton (ipfamily_of orig) orig →
  ip2revdns pton' res reslen (Some orig) = ip2revdns pton res reslen (Some orig).
Proof. intros H. unfold ip2revdns. by rewrite H. Qed.

(** C7.  An input shorter than four characters is rejected with the first
    byte of the output zeroed.  A longer input is converted as IPv4 exactly
    when a dot stands at index 1, 2 or 3 and as IPv6 otherwise: only the
    conversion of that family decides the result, and the input is rejected
    when that conversion fails. *)
Theorem ip2revdns_family_detection (pton pton' : Z → list ascii → option (list Z))
    (res : list ascii) (reslen : Z) (orig : list ascii) :
  let rejected := (-1, Some (<[0%nat := NUL]> res)) in
  let run := λ f, ip2revdns f (Some res) reslen (Some orig) in
  (strlen orig < 4 → run pton = rejected)
  ∧ (4 ≤ strlen orig → dot_at_1_3 orig →
       (pton AF_INET orig = None → run pton = rejected)
       ∧ (pton' AF_INET orig = pton AF_INET orig → run pton' = run pton)
       ∧ (∀ ip, pton AF_INET orig = Some ip →
                run pton = (0, Some (snprintf res 0 reslen (ip4_name ip)).1)))
  ∧ (4 ≤ strlen orig → ¬ dot_at_1_3 orig →
       (pton AF_INET6 orig = None → run pton = rejected)
       ∧ (pton' AF_INET6 orig = pton AF_INET6 orig → run pton' = run pton)).
Proof.
  cbv zeta. split; [|split].
  - intros Hlen. unfold ip2revdns. destruct (strlen orig <? 4) eqn:E; bool_Z; [done|lia].
  - intros Hlen Hdot. pose proof (ipfamily_of_dot _ Hdot) as Hfam.
    split; [|split].
    + intros Hp. unfold ip2revdns. destruct (strlen orig <? 4) eqn:E; [done|].
      by rewrite Hfam, Hp.
    + intros Hp. apply ip2revdns_ext. by rewrite Hfam.
    + intros ip Hp. unfold ip2revdns. destruct (strlen orig <? 4) eqn:E; bool_Z; [lia|].
      by rewrite Hfam, Hp.
  - intros Hlen Hdot. pose proof (ipfamily_of_no_dot _ Hdot) as Hfam.
    split.
    + intros Hp. unfold ip2revdns. destruct (strlen orig <? 4) eqn:E; [done|].
      by rewrite Hfam, Hp.
    + intros Hp. apply ip2revdns_ext. by rewrite Hfam.
Qed.

Lemma ip2revdns_family_detection_witness :
  ip2revdns inet_pton (Some (lit "#####")) 5 (Some (lit "::1"))
    = (-1, Some (NUL :: lit "####"))
  ∧ ip2revdns inet_pton (Some (lit "#####")) 5 (Some (lit "1.2.3.444"))
    = (-1, Some (NUL :: lit "####"))
  ∧ ip2revdns inet_pton (Some (lit "#####")) 5 (Some (lit "2001::12345"))
    = (-1, Some (NUL :: lit "####")).
Proof.
  pose proof (ip2revdns_family_detection inet_pton inet_pton (lit "#####") 5 (lit "::1"))
    as (H1 & _ & _).
  pose proof (ip2revdns_family_detection inet_pton inet_pton (lit "#####") 5 (lit "1.2.3.444"))
    as (_ & H2 & _).
  pose proof (ip2revdns_family_detection inet_pton inet_pton (lit "#####") 5 (lit "2001::12345"))
    as (_ & _ & H3).
  split; [|split].
  - apply H1. reflexivity.
  - apply H2; [discriminate | left; reflexivity | reflexivity].
  - apply H3; [discriminate | | reflexivity].
    intros [H|[H|H]]; discriminate H.
Defined.

(** ** [ip2revdns]: the IPv4 name *)

Lemma no_nul_forallb (s : list ascii) :
  forallb (λ c, negb (Ascii.eqb c NUL)) s = true → Forall (λ c, c ≠ NUL) s.
Proof.
  rewrite forallb_forall. intros H. apply Forall_forall. intros c Hc.
  apply list_elem_of_In, H in Hc. destruct (Ascii.eqb c NUL) eqn:E; [done|].
  by apply Ascii.eqb_neq in E.
Qed.

Lemma ip4_name_quad (a b c d : Z) :
  ip4_name [a; b; c; d] = dotted_quad d c b a ++ lit ".in-addr.arpa".
Proof. unfold ip4_name, dotted_quad, s6_addr. simpl nth. by rewrite <- !app_assoc. Qed.

Lemma dotted_quad_no_nul (a b c d : Z) :
  byte a → byte b → byte c → byte d → Forall (λ c, c ≠ NUL) (dotted_quad a b c d).
Proof.
  intros. unfold dotted_quad.
  repeat apply Forall_app_2; try (by apply fmt_d_no_nul); by apply no_nul_forallb.
Qed.

(** Every text that [inet_pton] converts to the bytes [a], [b], [c], [d]
    under [AF_INET] is reversed into the name of those bytes. *)
Lemma ip2revdns_ipv4_accepted (orig : list ascii) (a b c d : Z) (res : list ascii) (reslen : Z) :
  inet_pton4 orig = Some [a; b; c; d] →
  let name := dotted_quad d c b a ++ lit ".in-addr.arpa" in
  strlen name < reslen → reslen ≤ Z.of_nat (length res) →
  ip2revdns inet_pton (Some res) reslen (Some orig)
    = (0, Some (name ++ NUL :: drop (length name + 1) res)).
Proof.
  intros Hp name Hcap Hres.
  destruct (inet_pton4_shape _ _ Hp) as [Hlen Hdot].
  unfold ip2revdns. destruct (strlen orig <? 4) eqn:E; bool_Z; [lia|].
  rewrite (ipfamily_of_dot _ Hdot). change (inet_pton AF_INET orig) with (inet_pton4 orig).
  rewrite Hp. change (AF_INET =? AF_INET) with true. cbv iota.
  rewrite ip4_name_quad. fold name.
  rewrite snprintf_fits by lia. done.
Qed.

(** C1.  For address bytes [a], [b], [c], [d], the text [a.b.c.d] and a
    capacity that holds the name and its terminator, [ip2revdns] returns 0
    and leaves exactly [d.c.b.a.in-addr.arpa] in the output. *)
Theorem ip2revdns_ipv4_name (a b c d : Z) (res : list ascii) (reslen : Z) :
  byte a → byte b → byte c → byte d →
  let name := dotted_quad d c b a ++ lit ".in-addr.arpa" in
  strlen name < reslen → reslen ≤ Z.of_nat (length res) →
  ∃ res', ip2revdns inet_pton (Some res) reslen (Some (dotted_quad a b c d)) = (0, Some res')
          ∧ cstr res' = name
          ∧ drop (length name + 1) res' = drop (length name + 1) res.
Proof.
  intros Ha Hb Hc Hd name Hcap Hres.
  eexists. split; [|split].
  - apply ip2revdns_ipv4_accepted; [by apply inet_pton4_dotted_quad|done|done].
  - apply cstr_app_nul. apply Forall_app_2; [by apply dotted_quad_no_nul|].
    by apply no_nul_forallb.
  - apply drop_after_nul.
Qed.

Lemma ip2revdns_ipv4_name_witness :
  ∃ res', ip2revdns inet_pton (Some (blank 128)) 128 (Some (lit "203.0.113.1")) = (0, Some res')
          ∧ cstr res' = lit "1.113.0.203.in-addr.arpa"
          ∧ drop 25 res' = blank 103.
Proof.
  apply (ip2revdns_ipv4_name 203 0 113 1 (blank 128) 128); by vm_compute.
Defined.

(** ** [ip2revdns]: the IPv6 name *)

Lemma nibble_labels_length (b : Z) : byte b → length (nibble_labels b) = 4%nat.
Proof. intros Hb. by rewrite nibble_labels_byte. Qed.

Lemma nibble_labels_no_nul (b : Z) : byte b → Forall (λ c, c ≠ NUL) (nibble_labels b).
Proof.
  intros Hb. rewrite nibble_labels_byte by done. destruct Hb.
  repeat constructor; try done; apply hex_label_no_nul.
  - apply Z.mod_pos_bound. lia.
  - split; [apply Z.div_pos; lia | apply Z.div_lt_upper_bound; lia].
Qed.

Lemma ip6_labels_length (n : nat) (ip6 : list Z) :
  (∀ i, (i < n)%nat → byte (s6_addr ip6 i)) → length (ip6_labels n ip6) = (4 * n)%nat.
Proof.
  induction n as [|n IH]; intros Hb; [done|]. cbn [ip6_labels].
  rewrite length_app, nibble_labels_length, IH by (try apply Hb; intros; try apply Hb; lia). lia.
Qed.

Lemma ip6_labels_no_nul (n : nat) (ip6 : list Z) :
  (∀ i, (i < n)%nat → byte (s6_addr ip6 i)) → Forall (λ c, c ≠ NUL) (ip6_labels n ip6).
Proof.
  induction n as [|n IH]; intros Hb; [by constructor|]. cbn [ip6_labels].
  apply Forall_app_2; [apply nibble_labels_no_nul, Hb; lia|]. apply IH. intros. apply Hb. lia.
Qed.

(** With room for every label the loop runs to its end: the labels follow
    what was written before, and nothing after them and their terminator is
    touched. *)
Lemma ip6_loop_fits (n : nat) (ip6 : list Z) (mem : list ascii) (reslen : Z) (r : nat) :
  (∀ i, (i < n)%nat → byte (s6_addr ip6 i)) →
  Z.of_nat r + 4 * Z.of_nat n < reslen → reslen ≤ Z.of_nat (length mem) →
  ∃ mem', ip6_loop n ip6 mem reslen (Z.of_nat r) = inl (mem', Z.of_nat (r + 4 * n))
          ∧ take (r + 4 * n) mem' = take r mem ++ ip6_labels n ip6
          ∧ drop (r + 4 * n + 1) mem' = drop (r + 4 * n + 1) mem
          ∧ length mem' = length mem.
Proof.
  revert mem r. induction n as [|n IH]; intros mem r Hb Hcap Hmem.
  - exists mem. cbn [ip6_loop ip6_labels]. rewrite Nat.mul_0_r, Nat.add_0_r, app_nil_r. done.
  - cbn [ip6_loop ip6_labels].
    assert (Hbn : byte (s6_addr ip6 n)) by (apply Hb; lia).
    pose proof (nibble_labels_length _ Hbn) as Hl.
    rewrite snprintf_fits by (unfold strlen; lia). unfold strlen. rewrite Hl, Nat2Z.id.
    destruct (_ >=? reslen) eqn:E; bool_Z; [lia|].
    set (mem1 := take r mem ++ _).
    assert (Hlen1 : length mem1 = length mem).
    { unfold mem1. rewrite !length_app, length_take. simpl. rewrite length_drop. lia. }
    destruct (IH mem1 (r + 4)%nat) as (mem' & Hrun & Htake & Hdrop & Hlen);
      [intros; apply Hb; lia | lia | lia |].
    replace (Z.of_nat r + Z.of_nat 4) with (Z.of_nat (r + 4)) by lia.
    exists mem'. replace (r + 4 * S n)%nat with (r + 4 + 4 * n)%nat by lia.
    split; [done|]. split; [|split].
    + rewrite Htake, app_assoc. f_equal. unfold mem1.
      rewrite app_assoc. rewrite take_app_length'; [done|].
      rewrite length_app, length_take. lia.
    + rewrite Hdrop. unfold mem1. rewrite app_assoc, cons_middle, app_assoc.
      rewrite drop_app_ge by (rewrite !length_app, length_take; simpl; lia).
      rewrite drop_drop. f_equal. rewrite !length_app, length_take. simpl. lia.
    + lia.
Qed.

Lemma ip6_labels_spec (ip : list Z) :
  length ip = 16%nat → Forall byte ip →
  ip6_labels 16 ip ++ lit "ip6.arpa" = spec_ip6_name ip.
Proof.
  intros Hlen Hb. do 17 (destruct ip as [|? ip]; try discriminate Hlen).
  repeat match goal with H : Forall _ (_ :: _) |- _ => apply Forall_cons in H as [? H] end.
  unfold spec_ip6_name. cbn [ip6_labels s6_addr nth].
  rewrite !nibble_labels_byte by done. reflexivity.
Qed.

(** C2, as the code has it.  For a text of at least four characters with no
    dot at index 1, 2 or 3 that [inet_pton] converts under [AF_INET6], and a
    capacity of at least 73, [ip2revdns] returns 0 and leaves in the output
    the 32 nibble labels, low nibble before high nibble, last byte first,
    each followed by a dot, and then [ip6.arpa]. *)
Theorem ip2revdns_ipv6_name (orig : list ascii) (ip : list Z) (res : list ascii) (reslen : Z) :
  inet_pton AF_INET6 orig = Some ip →
  4 ≤ strlen orig → ¬ dot_at_1_3 orig →
  73 ≤ reslen → reslen ≤ Z.of_nat (length res) →
  ∃ res', ip2revdns inet_pton (Some res) reslen (Some orig) = (0, Some res')
          ∧ cstr res' = spec_ip6_name ip
          ∧ length (spec_ip6_name ip) = 72%nat
          ∧ drop 73 res' = drop 73 res.
Proof.
  intros Hp Hlen Hdot Hcap Hres.
  destruct (inet_pton6_bytes _ _ Hp) as [Hip Hb].
  assert (Hbi : ∀ i, (i < 16)%nat → byte (s6_addr ip i)).
  { intros i Hi. unfold s6_addr. rewrite nth_lookup.
    destruct (ip !! i) as [b|] eqn:E; simpl; [|unfold byte; lia].
    by eapply Forall_lookup_1 in E. }
  destruct (ip6_loop_fits 16 ip res reslen 0 Hbi) as (mem & Hrun & Htake & Hdrop & Hmem);
    [lia | lia |].
  rewrite take_0, app_nil_l in Htake. change (0 + 4 * 16)%nat with 64%nat in *.
  change (Z.of_nat 0) with 0 in Hrun. change (Z.of_nat 64) with 64 in Hrun.
  pose proof (ip6_labels_length 16 ip Hbi) as Hll.
  pose proof (ip6_labels_spec ip Hip Hb) as Hspec.
  unfold ip2revdns. destruct (strlen orig <? 4) eqn:E; bool_Z; [lia|].
  rewrite (ipfamily_of_no_dot _ Hdot), Hp. change (AF_INET6 =? AF_INET) with false.
  cbv iota. rewrite Hrun.
  rewrite snprintf_fits by (unfold strlen; simpl; lia).
  change (strlen (lit "ip6.arpa")) with 8.
  destruct (64 + 8 >=? reslen) eqn:E2; bool_Z; [lia|].
  change (Z.to_nat 64) with 64%nat. rewrite Htake.
  eexists. split; [reflexivity|].
  rewrite app_assoc, Hspec. split; [|split].
  - apply cstr_app_nul. rewrite <- Hspec.
    apply Forall_app_2; [by apply ip6_labels_no_nul | by apply no_nul_forallb].
  - rewrite <- Hspec, length_app, Hll. done.
  - rewrite drop_after_nul' by (rewrite <- Hspec, length_app, Hll; reflexivity).
    change (64 + length (lit "ip6.arpa") + 1)%nat with (65 + 8)%nat.
    change 73%nat with (65 + 8)%nat. rewrite <- !drop_drop.
    change (64 + 1)%nat with 65%nat in Hdrop. by rewrite Hdrop.
Qed.

Lemma ip2revdns_ipv6_name_witness :
  ∃ res', ip2revdns inet_pton (Some (blank 128)) 128 (Some (lit "2001:db8::1")) = (0, Some res')
          ∧ cstr res'
            = lit "1.0.0.0.0.0.0.0.0.0.0.0.0.0.0.0.0.0.0.0.0.0.0.0.8.b.d.0.1.0.0.2.ip6.arpa"
          ∧ length (spec_ip6_name [32; 1; 13; 184; 0; 0; 0; 0; 0; 0; 0; 0; 0; 0; 0; 1]) = 72%nat
          ∧ drop 73 res' = blank 55.
Proof.
  apply (ip2revdns_ipv6_name (lit "2001:db8::1")
           [32; 1; 13; 184; 0; 0; 0; 0; 0; 0; 0; 0; 0; 0; 0; 1] (blank 128) 128).
  - reflexivity.
  - by vm_compute.
  - intros [H|[H|H]]; discriminate H.
  - lia.
  - by vm_compute.
Defined.

(** Against C2 as stated: [::1] is a valid IPv6 address that [inet_pton]
    converts, yet [ip2revdns] rejects it whatever the capacity, because it
    has fewer than four characters. *)
Lemma ip2revdns_rejects_loopback :
  inet_pton AF_INET6 (lit "::1") = Some [0; 0; 0; 0; 0; 0; 0; 0; 0; 0; 0; 0; 0; 0; 0; 1]
  ∧ ∀ res reslen,
      ip2revdns inet_pton (Some res) reslen (Some (lit "::1"))
        = (-1, Some (<[0%nat := NUL]> res)).
Proof. split; reflexivity. Qed.

(** A valid IPv6 address with a dot at index 3 is taken for IPv4 and
    rejected as well. *)
Lemma ip2revdns_rejects_embedded_quad :
  inet_pton AF_INET6 (lit "::1.2.3.4") = Some [0; 0; 0; 0; 0; 0; 0; 0; 0; 0; 0; 0; 1; 2; 3; 4]
  ∧ ∀ res reslen,
      ip2revdns inet_pton (Some res) reslen (Some (lit "::1.2.3.4"))
        = (-1, Some (<[0%nat := NUL]> res)).
Proof. split; reflexivity. Qed.

(** ** [ip2revdns]: a capacity that is too small *)

(** [snprintf] stays inside the [size] bytes it is given. *)
Lemma snprintf_frame (mem : list ascii) (off size : Z) (s : list ascii) :
  0 ≤ off → 0 < size →
  length (snprintf mem off size s).1 = length mem
  ∧ drop (Z.to_nat (off + size)) (snprintf mem off size s).1
    = drop (Z.to_nat (off + size)) mem.
Proof.
  intros Hoff Hsize. unfold snprintf, size_t_of_int. cbn [fst].
  destruct (size <? 0) eqn:E1; bool_Z; [lia|].
  destruct (size =? 0) eqn:E2; bool_Z; [lia|].
  split; [apply length_inserts|].
  apply list_eq. intros i. rewrite !lookup_drop.
  apply list_lookup_inserts_ge. rewrite length_app, length_take. simpl. lia.
Qed.

(** The loop, whatever the capacity: it either runs to its end below the
    capacity or returns -1 with the first byte zeroed, and never writes at
    or past index [reslen]. *)
Lemma ip6_loop_bounded (n : nat) (ip6 : list Z) (mem : list ascii) (reslen : Z) (r : nat) :
  (∀ i, (i < n)%nat → byte (s6_addr ip6 i)) →
  Z.of_nat r < reslen → reslen ≤ Z.of_nat (length mem) →
  match ip6_loop n ip6 mem reslen (Z.of_nat r) with
  | inl (mem', rlen) =>
      rlen = Z.of_nat r + 4 * Z.of_nat n ∧ rlen < reslen
      ∧ length mem' = length mem
      ∧ drop (Z.to_nat reslen) mem' = drop (Z.to_nat reslen) mem
  | inr (st, mem') =>
      st = -1 ∧ reslen ≤ Z.of_nat r + 4 * Z.of_nat n
      ∧ mem' !! 0%nat = Some NUL
      ∧ length mem' = length mem
      ∧ drop (Z.to_nat reslen) mem' = drop (Z.to_nat reslen) mem
  end.
Proof.
  revert mem r. induction n as [|n IH]; intros mem r Hb Hr Hmem.
  - cbn [ip6_loop]. repeat split; lia.
  - cbn [ip6_loop].
    assert (Hbn : byte (s6_addr ip6 n)) by (apply Hb; lia).
    destruct (snprintf mem (Z.of_nat r) (reslen - Z.of_nat r) (nibble_labels (s6_addr ip6 n)))
      as [mem1 k] eqn:Hs.
    assert (Hk : k = 4).
    { apply (f_equal snd) in Hs. cbn in Hs. subst k. unfold strlen.
      by rewrite nibble_labels_length. }
    destruct (snprintf_frame mem (Z.of_nat r) (reslen - Z.of_nat r)
                (nibble_labels (s6_addr ip6 n))) as [Hlen1 Hdrop1]; [lia|lia|].
    rewrite Hs in Hlen1, Hdrop1. cbn [fst] in Hlen1, Hdrop1.
    replace (Z.of_nat r + (reslen - Z.of_nat r)) with reslen in Hdrop1 by lia.
    subst k. destruct (_ >=? reslen) eqn:E; bool_Z.
    + repeat split; [lia| | |].
      * apply list_lookup_insert_eq. lia.
      * by rewrite length_insert.
      * rewrite drop_insert_lt by lia. done.
    + replace (Z.of_nat r + 4) with (Z.of_nat (r + 4)) by lia.
      specialize (IH mem1 (r + 4)%nat).
      destruct (ip6_loop n ip6 mem1 reslen (Z.of_nat (r + 4))) as [[mem' rlen]|[st mem']].
      * destruct IH as (H1 & H2 & H3 & H4); [intros; apply Hb; lia|lia|lia|].
        repeat split; [lia|lia|lia|congruence].
      * destruct IH as (H1 & H2 & H3 & H4 & H5); [intros; apply Hb; lia|lia|lia|].
        repeat split; [lia|lia|done|lia|congruence].
Qed.

(** The IPv6 path with a capacity below 73: the call fails, the first byte
    of the output is zero and nothing is written at or past the capacity. *)
Lemma ip2revdns_ipv6_too_small (orig : list ascii) (ip : list Z) (res : list ascii)
    (reslen : Z) :
  inet_pton AF_INET6 orig = Some ip →
  4 ≤ strlen orig → ¬ dot_at_1_3 orig →
  0 < reslen ≤ 72 → reslen ≤ Z.of_nat (length res) →
  ∃ res', ip2revdns inet_pton (Some res) reslen (Some orig) = (-1, Some res')
          ∧ res' !! 0%nat = Some NUL
          ∧ length res' = length res
          ∧ drop (Z.to_nat reslen) res' = drop (Z.to_nat reslen) res.
Proof.
  intros Hp Hlen Hdot Hcap Hres.
  destruct (inet_pton6_bytes _ _ Hp) as [Hip Hb].
  assert (Hbi : ∀ i, (i < 16)%nat → byte (s6_addr ip i)).
  { intros i Hi. unfold s6_addr. rewrite nth_lookup.
    destruct (ip !! i) as [b|] eqn:E; simpl; [|unfold byte; lia].
    by eapply Forall_lookup_1 in E. }
  pose proof (ip6_loop_bounded 16 ip res reslen 0 Hbi) as Hloop.
  unfold ip2revdns. destruct (strlen orig <? 4) eqn:E; bool_Z; [lia|].
  rewrite (ipfamily_of_no_dot _ Hdot), Hp. change (AF_INET6 =? AF_INET) with false.
  cbv iota. change (Z.of_nat 0) with 0 in Hloop.
  destruct (ip6_loop 16 ip res reslen 0) as [[mem rlen]|[st mem]].
  - destruct Hloop as (H1 & H2 & H3 & H4); [lia|lia|].
    destruct (snprintf_frame mem rlen (reslen - rlen) (lit "ip6.arpa")) as [Hl Hd]; [lia|lia|].
    replace (rlen + (reslen - rlen)) with reslen in Hd by lia.
    destruct (snprintf mem rlen (reslen - rlen) (lit "ip6.arpa")) as [res2 k] eqn:Hs.
    assert (Hk : k = 8) by (by apply (f_equal snd) in Hs; cbn in Hs; subst k).
    cbn [fst] in Hl, Hd. subst k rlen.
    destruct (_ >=? reslen) eqn:E2; bool_Z; [|lia].
    eexists. split; [reflexivity|]. repeat split.
    + apply list_lookup_insert_eq. lia.
    + rewrite length_insert. lia.
    + rewrite drop_insert_lt by lia. congruence.
  - destruct Hloop as (-> & H2 & H3 & H4 & H5); [lia|lia|].
    eexists. split; [reflexivity|]. done.
Qed.

(** C6 at its failing input: on the IPv4 path with capacity 10 the name of
    [203.0.113.1] is cut after nine characters and the call reports
    success. *)
Example ip2revdns_ipv4_truncates :
  ip2revdns inet_pton (Some (blank 16)) 10 (Some (lit "203.0.113.1"))
    = (0, Some (lit "1.113.0.2" ++ NUL :: blank 6)).
Proof. reflexivity. Qed.

(** ** [rpp_getcontroller] *)

Lemma not_rde_tagged (rdata : list ascii) : has_tag rdata → not_rde rdata = Some false.
Proof. intros (H1 & H2 & H3 & H4). unfold not_rde. by rewrite H1, H2, H3, H4. Qed.

Lemma not_rde_untagged (rdata : list ascii) :
  (5 ≤ length rdata)%nat → ¬ has_tag rdata → not_rde rdata = Some true.
Proof.
  intros Hlen Htag. unfold not_rde, has_tag in *.
  destruct rdata as [|c0 [|c1 [|c2 [|c3 [|c4 rest]]]]]; simpl in Hlen; try lia.
  simpl in *.
  destruct (Ascii.eqb c1 "R"%char) eqn:E1; [|done]. apply Ascii.eqb_eq in E1 as ->.
  destruct (Ascii.eqb c2 "D"%char) eqn:E2; [|done]. apply Ascii.eqb_eq in E2 as ->.
  destruct (Ascii.eqb c3 "E"%char) eqn:E3; [|done]. apply Ascii.eqb_eq in E3 as ->.
  destruct (Ascii.eqb c4 ":"%char) eqn:E4; [|done]. apply Ascii.eqb_eq in E4 as ->.
  by destruct Htag.
Qed.

Lemma copy_controller_fits (result : list ascii) (maxres : Z) (rdata : list ascii)
    (declared : ascii) :
  rdata !! 0%nat = Some declared →
  let n := Z.min (code declared) maxres - 4 in
  0 ≤ n → 5 + n ≤ Z.of_nat (length rdata) → n < Z.of_nat (length result) →
  copy_controller result maxres rdata
    = Some (0, take (Z.to_nat n) (drop 5 rdata) ++ NUL :: drop (Z.to_nat n + 1) result).
Proof.
  intros H0 n Hn Hsrc Hdst. unfold copy_controller, memcpy. rewrite H0. cbn [mbind option_bind].
  replace (if code declared <? maxres then code declared else maxres)
    with (Z.min (code declared) maxres)
    by (destruct (code declared <? maxres) eqn:E; bool_Z; lia).
  fold n. destruct (n <? 0) eqn:E1; bool_Z; [lia|].
  destruct (_ <? _ + n) eqn:E2; bool_Z; [lia|].
  cbn [mbind option_bind]. do 2 f_equal.
  assert (Hl : length (take (Z.to_nat n) (drop 5 rdata)) = Z.to_nat n).
  { rewrite length_take, length_drop. lia. }
  rewrite list_inserts_middle by lia. rewrite take_0, app_nil_l, Hl. cbn [Nat.add].
  rewrite insert_app_r_alt by lia. rewrite Hl, Nat.sub_diag. f_equal.
  rewrite insert_take_drop by (rewrite length_drop; lia).
  by rewrite take_0, app_nil_l, drop_drop.
Qed.

Lemma copy_controller_status (result : list ascii) (maxres : Z) (rdata : list ascii)
    (st : Z) (result' : list ascii) :
  copy_controller result maxres rdata = Some (st, result') → st = 0.
Proof.
  unfold copy_controller. intros H.
  apply bind_Some in H as (len & _ & H). apply bind_Some in H as (r & _ & H).
  by injection H as <- _.
Qed.

Section ResolverProperties.

Context {packet ns_msg ns_rr : Type}.
Variable res_query : list ascii → Z → Z → Z → Z * packet.
Variable ns_initparse : packet → Z → option ns_msg.
Variable ns_msg_count : ns_msg → Z.
Variable ns_parserr : ns_msg → Z → option ns_rr.
Variable ns_rr_rdata : ns_rr → list ascii.

Local Abbreviation answers_loop' := (answers_loop ns_parserr ns_rr_rdata).
Local Abbreviation rpp_getcontroller' :=
  (rpp_getcontroller res_query ns_initparse ns_msg_count ns_parserr ns_rr_rdata).

Local Abbreviation skipped := (skipped_record ns_parserr ns_rr_rdata).

Lemma answers_loop_skip (k n : nat) (i : Z) (msg : ns_msg) (result : list ascii) (maxres : Z) :
  (∀ j, i ≤ j < i + Z.of_nat k → skipped msg j) →
  answers_loop' (k + n) i msg result maxres
    = answers_loop' n (i + Z.of_nat k) msg result maxres.
Proof.
  revert i. induction k as [|k IH]; intros i Hskip.
  - cbn [Nat.add]. f_equal. lia.
  - cbn [Nat.add answers_loop].
    destruct (Hskip i) as (rr & -> & Hlen & Htag); [lia|].
    rewrite not_rde_untagged by done. cbn [mbind option_bind].
    rewrite IH by (intros; apply Hskip; lia). f_equal. lia.
Qed.

Lemma answers_loop_frame (n : nat) (i : Z) (msg : ns_msg) (result : list ascii) (maxres st : Z)
    (result' : list ascii) :
  answers_loop' n i msg result maxres = Some (st, result') → st ≠ 0 → result' = result.
Proof.
  revert i. induction n as [|n IH]; intros i Hrun Hst.
  - by injection Hrun as _ <-.
  - cbn [answers_loop] in Hrun. destruct (ns_parserr msg i) as [rr|].
    + apply bind_Some in Hrun as ([] & _ & Hrun); [by eapply IH|].
      by apply copy_controller_status in Hrun.
    + by injection Hrun as _ <-.
Qed.



(** Only the return of 0 writes to the result. *)
Lemma rpp_getcontroller_frame (result : list ascii) (maxres : Z) (revname : list ascii)
    (st : Z) (result' : list ascii) :
  rpp_getcontroller' result maxres revname = Some (st, result') → st ≠ 0 → result' = result.
Proof.
  unfold rpp_getcontroller. destruct (res_query revname C_IN T_TXT 512) as [len answer].
  destruct (len <? 0); [by intros [= _ <-]|].
  destruct (ns_initparse answer len) as [msg|]; [|by intros [= _ <-]].
  destruct (ns_msg_count msg =? 0); [by intros [= _ <-]|].
  apply answers_loop_frame.
Qed.

End ResolverProperties.




(** ** [advertise_inpref_to_remote_dst] *)

Lemma sys_result_trace (w : os) : trace (sys_result w).2 = trace w.
Proof. unfold sys_result. by destruct (script w) as [|[r e] rest]. Qed.

Lemma socket_trace (d t p : Z) (w w' : os) (r : Z) :
  socket d t p w = (r, w') → trace w' = trace w ++ [Socket d t p r].
Proof.
  unfold socket. pose proof (sys_result_trace w) as H.
  destruct (sys_result w) as [r0 w0]. intros [= <- <-]. simpl in *. by rewrite H.
Qed.

Lemma connect_trace (fd fam addr : Z) (port : list Z) (w w' : os) (r : Z) :
  connect fd fam addr port w = (r, w') → trace w' = trace w ++ [Connect fd fam addr port r].
Proof.
  unfold connect. pose proof (sys_result_trace w) as H.
  destruct (sys_result w) as [r0 w0]. intros [= <- <-]. simpl in *. by rewrite H.
Qed.

Lemma send_trace (fd : Z) (buf : list ascii) (len flags : Z) (w w' : os) (r : Z) :
  send fd buf len flags w = (r, w') →
  trace w' = trace w ++ [Send fd (take (Z.to_nat len) buf) flags r].
Proof.
  unfold send. pose proof (sys_result_trace w) as H.
  destruct (sys_result w) as [r0 w0]. intros [= <- <-]. simpl in *. by rewrite H.
Qed.

Lemma take_strlen (s : list ascii) : take (Z.to_nat (strlen s)) s = s.
Proof. apply take_ge. unfold strlen. lia. Qed.

Section AdvertiseProperties.

Variable inet_addr : list ascii → Z.
Variable strerror : Z → list ascii.

Local Abbreviation advertise := (advertise_inpref_to_remote_dst inet_addr strerror).

(** A failed [connect]: the call returns -2 after the diagnostic; the
    events are the two calls and the diagnostic, no [send] and no
    [close]. *)
Lemma advertise_connect_failure (locpreflist : list ascii) (ttl : Z)
    (servstringaddr preflist : list ascii) (w : os) (sock e1 rc e2 : Z) (rest : list (Z * Z)) :
  script w = (sock, e1) :: (rc, e2) :: rest → 0 ≤ sock → rc < 0 →
  advertise locpreflist ttl servstringaddr preflist w
    = (-2, mkOs rest e2
             (trace w ++ [Socket PF_INET SOCK_STREAM IPPROTO_TCP sock;
                          Connect sock AF_INET (inet_addr servstringaddr) (htons 4343) rc;
                          Stdout (lit "ERROR: connection to the remote controller failed ("
                                  ++ strerror e2 ++ lit ")" ++ [LF])])).
Proof.
  intros Hs Hsock Hrc. unfold advertise_inpref_to_remote_dst, socket, connect, sys_result.
  rewrite Hs. destruct (sock <? 0) eqn:E1; bool_Z; [lia|]. cbn.
  destruct (sock <? 0) eqn:E1'; bool_Z; [lia|].
  destruct (rc <? 0) eqn:E2; bool_Z; [|lia].
  unfold printf, log. cbn. by rewrite <- !app_assoc.
Qed.

(** C5.  When the call returns 0 the socket has carried exactly
    [SETINPREF <ttl>\t<localPrefixes>\t<preferenceList>\r\n], sent in five
    pieces over a connection to port 4343; when [connect] fails the call
    returns -2 and nothing is sent. *)
Theorem advertise_wire (locpreflist : list ascii) (ttl : Z)
    (servstringaddr preflist : list ascii) (w : os) :
  strlen locpreflist < 2 ^ 32 → strlen preflist < 2 ^ 32 →
  (∀ w', advertise locpreflist ttl servstringaddr preflist w = (0, w') →
     ∃ sock rc tr,
       trace w' = trace w ++ tr
       ∧ tr = [Socket PF_INET SOCK_STREAM IPPROTO_TCP sock;
               Connect sock AF_INET (inet_addr servstringaddr) [16; 247] rc;
               Send sock (lit "SETINPREF " ++ fmt_d ttl ++ [TAB]) MSG_MORE
                 (strlen (lit "SETINPREF " ++ fmt_d ttl ++ [TAB]));
               Send sock locpreflist MSG_MORE (strlen locpreflist);
               Send sock [TAB] MSG_MORE 1;
               Send sock preflist MSG_MORE (strlen preflist);
               Send sock [CR; LF] 0 2;
               Close sock]
       ∧ 0 ≤ sock ∧ 0 ≤ rc
       ∧ sent_bytes sock tr = setinpref ttl locpreflist preflist)
  ∧ (∀ sock e1 rc e2 rest,
       script w = (sock, e1) :: (rc, e2) :: rest → 0 ≤ sock → rc < 0 →
       ∃ w' tr, advertise locpreflist ttl servstringaddr preflist w = (-2, w')
                ∧ trace w' = trace w ++ tr
                ∧ (∀ fd data flags ret, Send fd data flags ret ∉ tr)
                ∧ sent_bytes sock tr = []).
Proof.
  intros Hloc Hpref. split.
  - intros w'. unfold advertise_inpref_to_remote_dst.
    destruct (socket _ _ _ w) as [sock w1] eqn:H1.
    destruct (sock <? 0) eqn:E1; [intros [=]|].
    destruct (connect _ _ _ _ w1) as [rc w2] eqn:H2.
    destruct (rc <? 0) eqn:E2; [intros [=]|].
    destruct (send _ _ _ _ w2) as [r3 w3] eqn:H3.
    destruct (negb (r3 =? _)) eqn:E3; [intros [=]|].
    destruct (send _ _ _ _ w3) as [r4 w4] eqn:H4.
    destruct (negb (r4 =? _)) eqn:E4; [intros [=]|].
    destruct (send _ _ _ _ w4) as [r5 w5] eqn:H5.
    destruct (negb (r5 =? _)) eqn:E5; [intros [=]|].
    destruct (send _ _ _ _ w5) as [r6 w6] eqn:H6.
    destruct (negb (r6 =? _)) eqn:E6; [intros [=]|].
    destruct (send _ _ _ _ w6) as [r7 w7] eqn:H7.
    destruct (negb (r7 =? _)) eqn:E7; [intros [=]|].
    intros [= <-]. bool_Z. subst r3 r4 r5 r6 r7.
    unfold to_unsigned in *. rewrite !Z.mod_small in * by (unfold strlen in *; lia).
    apply socket_trace in H1. apply connect_trace in H2.
    apply send_trace in H3, H4, H5, H6, H7.
    rewrite take_strlen in H3, H4, H6.
    exists sock, rc. eexists. split; [|split; [reflexivity|]].
    + unfold close, log. cbn [trace]. rewrite H7, H6, H5, H4, H3, H2, H1.
      rewrite <- !app_assoc. reflexivity.
    + split; [lia|]. split; [lia|].
      cbn [sent_bytes]. rewrite !Z.eqb_refl, !take_strlen. cbn [take Z.to_nat Pos.to_nat
        Pos.iter_op Nat.add]. unfold setinpref. by rewrite <- !app_assoc.
  - intros sock e1 rc e2 rest Hs Hsock Hrc.
    rewrite (advertise_connect_failure _ _ _ _ _ _ _ _ _ _ Hs Hsock Hrc).
    do 2 eexists. split; [reflexivity|]. cbn [trace]. split; [reflexivity|]. split.
    + intros fd data flags ret Hin.
      apply list_elem_of_In in Hin. simpl in Hin.
      destruct Hin as [H|[H|[H|[]]]]; discriminate H.
    + reflexivity.
Qed.

(** X14.  After [connect] has succeeded every return closes the socket: the
    last event is its [close]. *)
Lemma advertise_closes_after_connect (locpreflist : list ascii) (ttl : Z)
    (servstringaddr preflist : list ascii) (w w' : os) (r : Z) :
  advertise locpreflist ttl servstringaddr preflist w = (r, w') →
  r ≠ -1 → r ≠ -2 →
  ∃ sock, Socket PF_INET SOCK_STREAM IPPROTO_TCP sock ∈ trace w'
          ∧ last (trace w') = Some (Close sock).
Proof.
  unfold advertise_inpref_to_remote_dst.
  destruct (socket _ _ _ w) as [sock w1] eqn:H1.
  destruct (sock <? 0) eqn:E1; [by intros [= <- _]|].
  destruct (connect _ _ _ _ w1) as [rc w2] eqn:H2.
  destruct (rc <? 0) eqn:E2; [by intros [= <- _]|].
  apply socket_trace in H1. apply connect_trace in H2.
  assert (Hin : ∀ tr, Socket PF_INET SOCK_STREAM IPPROTO_TCP sock ∈ trace w2 ++ tr).
  { intros tr. rewrite H2, H1. set_solver. }
  destruct (send _ _ _ _ w2) as [r3 w3] eqn:H3. apply send_trace in H3.
  destruct (negb (r3 =? _)) eqn:E3.
  { intros [= <- <-] _ _. exists sock. unfold close, send_failed, printf, log. cbn [trace].
    split; [|by rewrite last_snoc]. rewrite H3, <- !app_assoc. apply Hin. }
  destruct (send _ _ _ _ w3) as [r4 w4] eqn:H4. apply send_trace in H4.
  destruct (negb (r4 =? _)) eqn:E4.
  { intros [= <- <-] _ _. exists sock. unfold close, send_failed, printf, log. cbn [trace].
    split; [|by rewrite last_snoc]. rewrite H4, H3, <- !app_assoc. apply Hin. }
  destruct (send _ _ _ _ w4) as [r5 w5] eqn:H5. apply send_trace in H5.
  destruct (negb (r5 =? _)) eqn:E5.
  { intros [= <- <-] _ _. exists sock. unfold close, send_failed, printf, log. cbn [trace].
    split; [|by rewrite last_snoc]. rewrite H5, H4, H3, <- !app_assoc. apply Hin. }
  destruct (send _ _ _ _ w5) as [r6 w6] eqn:H6. apply send_trace in H6.
  destruct (negb (r6 =? _)) eqn:E6.
  { intros [= <- <-] _ _. exists sock. unfold close, send_failed, printf, log. cbn [trace].
    split; [|by rewrite last_snoc]. rewrite H6, H5, H4, H3, <- !app_assoc. apply Hin. }
  destruct (send _ _ _ _ w6) as [r7 w7] eqn:H7. apply send_trace in H7.
  destruct (negb (r7 =? _)) eqn:E7.
  { intros [= <- <-] _ _. exists sock. unfold close, send_failed, printf, log. cbn [trace].
    split; [|by rewrite last_snoc]. rewrite H7, H6, H5, H4, H3, <- !app_assoc. apply Hin. }
  intros [= <- <-] _ _. exists sock. unfold close, log. cbn [trace].
  split; [|by rewrite last_snoc]. rewrite H7, H6, H5, H4, H3, <- !app_assoc. apply Hin.
Qed.

End AdvertiseProperties.

Lemma advertise_wire_witness :
  let w := mkOs [(3, 0); (0, 0); (15, 0); (28, 0); (1, 0); (27, 0); (2, 0)] 0 [] in
  let run := advertise_inpref_to_remote_dst (λ _, 0) (λ _, lit "Connection refused")
               (lit "192.0.2.0/24 198.51.100.0/24") 3600 (lit "192.0.2.55")
               (lit "64552:0 64900:255 65001:127") in
  (∃ sock rc tr,
     trace (run w).2 = trace w ++ tr
     ∧ tr = [Socket PF_INET SOCK_STREAM IPPROTO_TCP sock;
             Connect sock AF_INET 0 [16; 247] rc;
             Send sock (lit "SETINPREF 3600" ++ [TAB]) MSG_MORE 15;
             Send sock (lit "192.0.2.0/24 198.51.100.0/24") MSG_MORE 28;
             Send sock [TAB] MSG_MORE 1;
             Send sock (lit "64552:0 64900:255 65001:127") MSG_MORE 27;
             Send sock [CR; LF] 0 2;
             Close sock]
     ∧ 0 ≤ sock ∧ 0 ≤ rc
     ∧ sent_bytes sock tr
       = lit "SETINPREF 3600" ++ [TAB] ++ lit "192.0.2.0/24 198.51.100.0/24" ++ [TAB]
         ++ lit "64552:0 64900:255 65001:127" ++ [CR; LF])
  ∧ (∃ w' tr, run (mkOs [(3, 0); (-1, 111)] 0 []) = (-2, w')
              ∧ trace w' = [] ++ tr
              ∧ (∀ fd data flags ret, Send fd data flags ret ∉ tr)
              ∧ sent_bytes 3 tr = []).
Proof.
  intros w run. split.
  - refine (proj1 (advertise_wire (λ _, 0) (λ _, lit "Connection refused")
              (lit "192.0.2.0/24 198.51.100.0/24") 3600 (lit "192.0.2.55")
              (lit "64552:0 64900:255 65001:127") w _ _) (run w).2 _).
    + by vm_compute.
    + by vm_compute.
    + reflexivity.
  - refine (proj2 (advertise_wire (λ _, 0) (λ _, lit "Connection refused")
              (lit "192.0.2.0/24 198.51.100.0/24") 3600 (lit "192.0.2.55")
              (lit "64552:0 64900:255 65001:127") (mkOs [(3, 0); (-1, 111)] 0 []) _ _)
              3 0 (-1) 111 [] _ _ _).
    + by vm_compute.
    + by vm_compute.
    + reflexivity.
    + lia.
    + lia.
Defined.

(** C8 at its failing input: [socket] returns descriptor 3 and [connect]
    fails; the call returns -2 and the descriptor is never closed. *)
Example advertise_connect_failure_leaks :
  advertise_inpref_to_remote_dst (λ _, 0) (λ _, lit "Connection refused")
    (lit "192.0.2.0/24") 3600 (lit "192.0.2.55") (lit "64552:0")
    (mkOs [(3, 0); (-1, 111)] 0 [])
  = (-2, mkOs [] 111
           [Socket PF_INET SOCK_STREAM IPPROTO_TCP 3;
            Connect 3 AF_INET 0 [16; 247] (-1);
            Stdout (lit "ERROR: connection to the remote controller failed (Connection refused)"
                    ++ [LF])]).
Proof. reflexivity. Qed.

(** ** [main] *)


Lemma some_let_pair (p : Z * os) (f : Z → os → os) :
  (let '(r, w) := p in Some (0, f r w)) = Some (0, let '(r, w) := p in f r w).
Proof. by destruct p. Qed.

Section MainProperties.

Context {packet ns_msg ns_rr : Type}.
Variable pton : Z → list ascii → option (list Z).
Variable res_query : list ascii → Z → Z → Z → Z * packet.
Variable ns_initparse : packet → Z → option ns_msg.
Variable ns_msg_count : ns_msg → Z.
Variable ns_parserr : ns_msg → Z → option ns_rr.
Variable ns_rr_rdata : ns_rr → list ascii.
Variable inet_addr : list ascii → Z.
Variable strerror : Z → list ascii.

Local Abbreviation advertise := (advertise_inpref_to_remote_dst inet_addr strerror).
Local Abbreviation getcontroller :=
  (rpp_getcontroller res_query ns_initparse ns_msg_count ns_parserr ns_rr_rdata).
Local Abbreviation main' :=
  (main pton res_query ns_initparse ns_msg_count ns_parserr ns_rr_rdata inet_addr strerror).



(** C10.  A return other than 0 leaves the result buffer as it was, so
    that an advertisement after a failed resolution is addressed with what
    [rdeaddr] held when [main] was entered. *)
Theorem resolve_failure_leaves_buffer :
  (∀ result maxres revname st result',
     getcontroller result maxres revname = Some (st, result') → st ≠ 0 → result' = result)
  ∧ (∀ argv revdns0 rdeaddr0 w prefixorg locpreflist preflist revdns st rdeaddr,
       parse_args argv = Some (ADVERTISE, prefixorg, locpreflist, preflist) →
       ip2revdns pton (Some revdns0) 128 (Some (cut_prefix 127 prefixorg)) = (0, Some revdns) →
       getcontroller rdeaddr0 128 (cstr revdns) = Some (st, rdeaddr) → st ≠ 0 →
       rdeaddr = rdeaddr0
       ∧ main' argv revdns0 rdeaddr0 w
         = Some (0, let '(r, w2) := advertise locpreflist 3600 (cstr rdeaddr0) preflist
                                      (resolution_reported prefixorg st rdeaddr0 w) in
                    if r =? 0 then puts (lit "Done.") w2 else w2)).
Proof.
  split.
  - intros result maxres revname st result'. apply rpp_getcontroller_frame.
  - intros argv revdns0 rdeaddr0 w prefixorg locpreflist preflist revdns st rdeaddr
      Hargs Hrev Hget Hst.
    pose proof (rpp_getcontroller_frame _ _ _ _ _ _ _ _ _ _ Hget Hst) as ->.
    split; [done|]. unfold main. rewrite Hargs, Hrev. cbn [negb Z.eqb]. cbv iota.
    rewrite Hget. cbn [mbind option_bind]. change (ADVERTISE =? RESOLVE) with false.
    cbv iota. unfold resolution_reported.
    refine (some_let_pair _ (λ r w2, if r =? 0 then puts (lit "Done.") w2 else w2)).
Qed.

End MainProperties.



Lemma resolve_failure_leaves_buffer_witness :
  let argv := [lit "rpp"; lit "advertise"; lit "203.0.113.0/24"; lit "192.0.2.0/24";
               lit "64552:0"] in
  let w := mkOs [(3, 0); (-1, 111)] 0 [] in
  sample_getcontroller (Records [Some (txt "v=spf1 -all")]) (lit "stale" ++ NUL :: blank 122)
    128 (lit "0.113.0.203.in-addr.arpa")
  = Some (1, lit "stale" ++ NUL :: blank 122)
  ∧ sample_main (Records [Some (txt "v=spf1 -all")]) argv (blank 128)
      (lit "stale" ++ NUL :: blank 122) w
    = Some (0, (advertise_inpref_to_remote_dst sample_inet_addr sample_strerror
                  (lit "192.0.2.0/24") 3600 (lit "stale") (lit "64552:0")
                  (puts (lit "Sending preferences...")
                     (printf (lit "No RDE entry found for 203.0.113.0/24" ++ [LF]) w))).2).
Proof.
  intros argv w. split; [reflexivity|].
  refine (proj2 (proj2 (resolve_failure_leaves_buffer inet_pton
            (sample_query (Records [Some (txt "v=spf1 -all")])) sample_initparse sample_count
            sample_parserr id sample_inet_addr sample_strerror)
            argv (blank 128) (lit "stale" ++ NUL :: blank 122) w (lit "203.0.113.0/24")
            (lit "192.0.2.0/24") (lit "64552:0")
            (lit "0.113.0.203.in-addr.arpa" ++ NUL :: blank 103) 1
            (lit "stale" ++ NUL :: blank 122) eq_refl eq_refl eq_refl _)).
  lia.
Defined.

(** * Further properties *)

(** ** [ip2revdns]: what every call keeps *)

Lemma snprintf_length (mem : list ascii) (off size : Z) (s : list ascii) :
  length (snprintf mem off size s).1 = length mem.
Proof.
  unfold snprintf. cbn [fst]. destruct (_ =? 0); [done|apply length_inserts].
Qed.

Lemma snprintf_ret (mem : list ascii) (off size : Z) (s : list ascii) :
  0 ≤ (snprintf mem off size s).2.
Proof. unfold snprintf, strlen. cbn [snd]. lia. Qed.

(** [snprintf] with room for at least the terminator leaves a NUL inside
    the bytes it was given. *)
Lemma snprintf_nul (mem : list ascii) (off size : Z) (s : list ascii) :
  0 ≤ off → 0 < size → off + size ≤ Z.of_nat (length mem) →
  ∃ i : nat, Z.of_nat i < off + size ∧ (snprintf mem off size s).1 !! i = Some NUL.
Proof.
  intros Hoff Hsize Hmem. unfold snprintf, size_t_of_int. cbn [fst].
  destruct (size <? 0) eqn:E1; bool_Z; [lia|].
  destruct (size =? 0) eqn:E2; bool_Z; [lia|].
  set (k := take (Z.to_nat (size - 1)) s).
  assert (Hk : (length k ≤ Z.to_nat (size - 1))%nat) by (unfold k; rewrite length_take; lia).
  exists (Z.to_nat off + length k)%nat. split; [lia|].
  rewrite list_lookup_inserts by (rewrite ?length_app; simpl; lia).
  replace (Z.to_nat off + length k - Z.to_nat off)%nat with (length k + 0)%nat by lia.
  by rewrite lookup_app_r, Nat.add_comm, Nat.add_sub by lia.
Qed.

Lemma cstr_length_le (b : list ascii) (i : nat) :
  b !! i = Some NUL → (length (cstr b) ≤ i)%nat.
Proof.
  revert i. induction b as [|c b IH]; intros i Hi; [done|]. cbn [cstr].
  destruct (Ascii.eqb c NUL) eqn:E; [simpl; lia|].
  destruct i as [|i]; simpl in Hi.
  - injection Hi as ->. by rewrite Ascii.eqb_refl in E.
  - apply IH in Hi. simpl. lia.
Qed.

Lemma cstr_nul_first (b : list ascii) : b !! 0%nat = Some NUL → cstr b = [].
Proof.
  intros H. apply cstr_length_le in H. destruct (cstr b); [done|simpl in H; lia].
Qed.

(** The loop, for any capacity and any address bytes: the memory keeps its
    length, a return inside the loop is -1 with the first byte zeroed. *)
Lemma ip6_loop_shape (n : nat) (ip6 : list Z) (mem : list ascii) (reslen rlen : Z) :
  match ip6_loop n ip6 mem reslen rlen with
  | inl (mem', rlen') => length mem' = length mem ∧ rlen ≤ rlen'
  | inr (st, mem') =>
      st = -1 ∧ length mem' = length mem ∧ (mem ≠ [] → mem' !! 0%nat = Some NUL)
  end.
Proof.
  revert mem rlen. induction n as [|n IH]; intros mem rlen; cbn [ip6_loop]; [split; [done|lia]|].
  pose proof (snprintf_length mem rlen (reslen - rlen) (nibble_labels (s6_addr ip6 n))) as Hl.
  pose proof (snprintf_ret mem rlen (reslen - rlen) (nibble_labels (s6_addr ip6 n))) as Hr.
  destruct (snprintf mem rlen (reslen - rlen) _) as [mem1 k]. cbn [fst snd] in Hl, Hr.
  destruct (_ >=? reslen).
  - split; [done|]. split; [by rewrite length_insert|].
    intros Hne. apply list_lookup_insert_eq. destruct mem; [done|]. simpl in Hl. lia.
  - specialize (IH mem1 (rlen + k)).
    destruct (ip6_loop n ip6 mem1 reslen (rlen + k)) as [[mem' rlen']|[st mem']].
    + destruct IH. split; [congruence|lia].
    + destruct IH as (? & ? & H0). split; [done|]. split; [congruence|].
      intros Hne. apply H0. destruct mem1; [|done]. destruct mem; [done|discriminate Hl].
Qed.

(** The loop never writes at or past index [reslen]. *)
Lemma ip6_loop_frame (n : nat) (ip6 : list Z) (mem : list ascii) (reslen rlen : Z) :
  0 ≤ rlen < reslen →
  match ip6_loop n ip6 mem reslen rlen with
  | inl (mem', rlen') =>
      rlen ≤ rlen' < reslen ∧ drop (Z.to_nat reslen) mem' = drop (Z.to_nat reslen) mem
  | inr (_, mem') => drop (Z.to_nat reslen) mem' = drop (Z.to_nat reslen) mem
  end.
Proof.
  revert mem rlen. induction n as [|n IH]; intros mem rlen Hr; cbn [ip6_loop]; [split; [lia|done]|].
  destruct (snprintf_frame mem rlen (reslen - rlen) (nibble_labels (s6_addr ip6 n)))
    as [_ Hd]; [lia|lia|].
  pose proof (snprintf_ret mem rlen (reslen - rlen) (nibble_labels (s6_addr ip6 n))) as Hk.
  replace (rlen + (reslen - rlen)) with reslen in Hd by lia.
  destruct (snprintf mem rlen (reslen - rlen) _) as [mem1 k]. cbn [fst snd] in Hd, Hk.
  destruct (_ >=? reslen) eqn:E; bool_Z.
  - rewrite drop_insert_lt by lia. done.
  - specialize (IH mem1 (rlen + k)).
    destruct (ip6_loop n ip6 mem1 reslen (rlen + k)) as [[mem' rlen']|[st mem']].
    + destruct IH as [? ?]; [lia|]. split; [lia|congruence].
    + rewrite IH by lia. done.
Qed.

(** X1.  Whatever the conversion, the capacity and the input, a call with an
    output returns 0 or -1 and keeps the length of the memory; after -1 the
    output holds the empty string. *)
Theorem ip2revdns_status (pton : Z → list ascii → option (list Z)) (res : list ascii)
    (reslen : Z) (orig : option (list ascii)) :
  ∃ r res', ip2revdns pton (Some res) reslen orig = (r, Some res')
            ∧ length res' = length res
            ∧ (r = 0 ∨ r = -1)
            ∧ (r = -1 → res ≠ [] → cstr res' = []).
Proof.
  assert (Hrej : ∃ r res', (-1, Some (<[0%nat := NUL]> res)) = (r, Some res')
                   ∧ length res' = length res ∧ (r = 0 ∨ r = -1)
                   ∧ (r = -1 → res ≠ [] → cstr res' = [])).
  { do 2 eexists. split; [reflexivity|]. split; [by rewrite length_insert|]. split; [by right|].
    intros _ Hne. apply cstr_nul_first, list_lookup_insert_eq. destruct res; [done|simpl; lia]. }
  unfold ip2revdns. destruct orig as [orig|]; [|exact Hrej].
  destruct (strlen orig <? 4); [exact Hrej|].
  destruct (pton (ipfamily_of orig) orig) as [ip6|]; [|exact Hrej].
  destruct (ipfamily_of orig =? AF_INET).
  - do 2 eexists. split; [reflexivity|]. split; [apply snprintf_length|].
    split; [by left|]. intros [=].
  - pose proof (ip6_loop_shape 16 ip6 res reslen 0) as Hloop.
    destruct (ip6_loop 16 ip6 res reslen 0) as [[res1 rlen]|[st res1]].
    + destruct Hloop as [Hl _].
      pose proof (snprintf_length res1 rlen (reslen - rlen) (lit "ip6.arpa")) as Hl2.
      destruct (snprintf res1 rlen (reslen - rlen) (lit "ip6.arpa")) as [res2 k].
      cbn [fst] in Hl2. destruct (_ >=? reslen).
      * do 2 eexists. split; [reflexivity|]. split; [rewrite length_insert; congruence|].
        split; [by right|]. intros _ Hne. apply cstr_nul_first, list_lookup_insert_eq.
        destruct res; [done|]. simpl in *. lia.
      * do 2 eexists. split; [reflexivity|]. split; [congruence|]. split; [by left|].
        intros [=].
    + destruct Hloop as (-> & Hl & H0). do 2 eexists. split; [reflexivity|].
      split; [done|]. split; [by right|]. intros _ Hne. by apply cstr_nul_first, H0.
Qed.

(** X2.  With a capacity of at least one byte no call writes at or past the
    capacity, whatever the conversion and the input. *)
Theorem ip2revdns_frame (pton : Z → list ascii → option (list Z)) (res : list ascii)
    (reslen : Z) (orig : option (list ascii)) (r : Z) (res' : list ascii) :
  1 ≤ reslen →
  ip2revdns pton (Some res) reslen orig = (r, Some res') →
  drop (Z.to_nat reslen) res' = drop (Z.to_nat reslen) res.
Proof.
  intros Hcap.
  assert (Hrej : (-1, Some (<[0%nat := NUL]> res)) = (r, Some res') →
                 drop (Z.to_nat reslen) res' = drop (Z.to_nat reslen) res).
  { intros [= _ <-]. apply drop_insert_lt. lia. }
  unfold ip2revdns. destruct orig as [orig|]; [|exact Hrej].
  destruct (strlen orig <? 4); [exact Hrej|].
  destruct (pton (ipfamily_of orig) orig) as [ip6|]; [|exact Hrej].
  destruct (ipfamily_of orig =? AF_INET).
  - intros [= _ <-].
    destruct (snprintf_frame res 0 reslen (ip4_name ip6)) as [_ Hd]; [lia|lia|].
    by rewrite Z.add_0_l in Hd.
  - pose proof (ip6_loop_frame 16 ip6 res reslen 0) as Hloop.
    destruct (ip6_loop 16 ip6 res reslen 0) as [[res1 rlen]|[st res1]].
    + destruct Hloop as [Hr Hd1]; [lia|].
      destruct (snprintf_frame res1 rlen (reslen - rlen) (lit "ip6.arpa")) as [_ Hd]; [lia|lia|].
      replace (rlen + (reslen - rlen)) with reslen in Hd by lia.
      destruct (snprintf res1 rlen (reslen - rlen) (lit "ip6.arpa")) as [res2 k].
      cbn [fst] in Hd. destruct (_ >=? reslen); intros [= _ <-].
      * rewrite drop_insert_lt by lia. congruence.
      * congruence.
    + intros [= _ <-]. apply Hloop. lia.
Qed.

Lemma ip2revdns_frame_witness :
  drop 10 (lit "1.113.0.2" ++ NUL :: blank 6) = drop 10 (blank 16).
Proof.
  apply (ip2revdns_frame inet_pton (blank 16) 10 (Some (lit "203.0.113.1")) 0
           (lit "1.113.0.2" ++ NUL :: blank 6)); [lia|reflexivity].
Defined.

(** X3.  With a capacity of at least one byte that the memory really has, the
    output holds afterwards a string shorter than the capacity: the call
    always leaves a terminator inside the buffer. *)
Theorem ip2revdns_terminated (pton : Z → list ascii → option (list Z)) (res : list ascii)
    (reslen : Z) (orig : option (list ascii)) (r : Z) (res' : list ascii) :
  1 ≤ reslen ≤ Z.of_nat (length res) →
  ip2revdns pton (Some res) reslen orig = (r, Some res') →
  strlen (cstr res') < reslen.
Proof.
  intros Hcap.
  assert (Hnul : ∀ b : list ascii, (∃ i : nat, Z.of_nat i < reslen ∧ b !! i = Some NUL) →
                 strlen (cstr b) < reslen).
  { intros b (i & Hi & Hb). apply cstr_length_le in Hb. unfold strlen. lia. }
  assert (Hrej : ∀ m : list ascii, length m = length res →
                 (-1, Some (<[0%nat := NUL]> m)) = (r, Some res') → strlen (cstr res') < reslen).
  { intros m Hm [= _ <-]. apply Hnul. exists 0%nat. split; [lia|].
    apply list_lookup_insert_eq. lia. }
  unfold ip2revdns. destruct orig as [orig|]; [|by apply Hrej].
  destruct (strlen orig <? 4); [by apply Hrej|].
  destruct (pton (ipfamily_of orig) orig) as [ip6|]; [|by apply Hrej].
  destruct (ipfamily_of orig =? AF_INET).
  - intros [= _ <-]. apply Hnul.
    destruct (snprintf_nul res 0 reslen (ip4_name ip6)) as (i & Hi & Hb); [lia|lia|lia|].
    exists i. split; [lia|done].
  - pose proof (ip6_loop_frame 16 ip6 res reslen 0) as Hloop.
    pose proof (ip6_loop_shape 16 ip6 res reslen 0) as Hshape.
    destruct (ip6_loop 16 ip6 res reslen 0) as [[res1 rlen]|[st res1]].
    + destruct Hloop as [Hr _]; [lia|]. destruct Hshape as [Hl _].
      destruct (snprintf_nul res1 rlen (reslen - rlen) (lit "ip6.arpa")) as (i & Hi & Hb);
        [lia|lia|lia|].
      pose proof (snprintf_length res1 rlen (reslen - rlen) (lit "ip6.arpa")) as Hl2.
      destruct (snprintf res1 rlen (reslen - rlen) (lit "ip6.arpa")) as [res2 k].
      cbn [fst] in Hb, Hl2. destruct (_ >=? reslen).
      * apply Hrej. congruence.
      * intros [= _ <-]. apply Hnul. exists i. split; [lia|done].
    + destruct Hshape as (_ & Hl & H0). intros [= _ <-]. apply Hnul. exists 0%nat.
      split; [lia|]. apply H0. destruct res; [simpl in Hcap; lia|done].
Qed.

Lemma ip2revdns_terminated_witness :
  strlen (cstr (lit "1.113.0.2" ++ NUL :: blank 6)) < 10.
Proof.
  apply (ip2revdns_terminated inet_pton (blank 16) 10 (Some (lit "203.0.113.1")) 0
           (lit "1.113.0.2" ++ NUL :: blank 6)); [by vm_compute|reflexivity].
Defined.

(** ** [ip2revdns]: which inputs succeed *)

(** X4.  The IPv4 path never fails: with any capacity of at least one byte the
    call returns 0 and the output holds the name cut to [reslen - 1]
    characters. *)
Theorem ip2revdns_ipv4_cut (orig : list ascii) (a b c d : Z) (res : list ascii) (reslen : Z) :
  inet_pton AF_INET orig = Some [a; b; c; d] →
  1 ≤ reslen ≤ Z.of_nat (length res) →
  ∃ res', ip2revdns inet_pton (Some res) reslen (Some orig) = (0, Some res')
          ∧ cstr res'
            = take (Z.to_nat (reslen - 1)) (dotted_quad d c b a ++ lit ".in-addr.arpa").
Proof.
  intros Hp Hcap. change (inet_pton AF_INET orig) with (inet_pton4 orig) in Hp.
  destruct (inet_pton4_shape _ _ Hp) as [Hlen Hdot].
  destruct (inet_pton4_bytes _ _ Hp) as [_ Hb].
  repeat match goal with H : Forall _ (_ :: _) |- _ => apply Forall_cons in H as [? H] end.
  unfold ip2revdns. destruct (strlen orig <? 4) eqn:E; bool_Z; [lia|].
  rewrite (ipfamily_of_dot _ Hdot). change (inet_pton AF_INET orig) with (inet_pton4 orig).
  rewrite Hp. change (AF_INET =? AF_INET) with true. cbv iota.
  rewrite ip4_name_quad. eexists. split; [reflexivity|].
  unfold snprintf, size_t_of_int. cbn [fst].
  destruct (reslen <? 0) eqn:E1; bool_Z; [lia|].
  destruct (reslen =? 0) eqn:E2; bool_Z; [lia|].
  set (k := take _ _).
  assert (Hk : (length k ≤ Z.to_nat (reslen - 1))%nat) by (unfold k; rewrite length_take; lia).
  rewrite list_inserts_middle by (rewrite length_app; simpl; lia).
  rewrite take_0, app_nil_l, <- app_assoc. apply cstr_app_nul.
  unfold k. apply Forall_take, Forall_app_2; [by apply dotted_quad_no_nul|].
  by apply no_nul_forallb.
Qed.

Lemma ip2revdns_ipv4_cut_witness :
  ∃ res', ip2revdns inet_pton (Some (blank 16)) 6 (Some (lit "203.0.113.1")) = (0, Some res')
          ∧ cstr res' = lit "1.113".
Proof.
  apply (ip2revdns_ipv4_cut (lit "203.0.113.1") 203 0 113 1 (blank 16) 6);
    [reflexivity|by vm_compute].
Defined.

(** The name of an accepted IPv6 text with room for it. *)
Lemma ip2revdns_ipv6_fits (orig : list ascii) (ip : list Z) (res : list ascii) (reslen : Z) :
  inet_pton AF_INET6 orig = Some ip →
  4 ≤ strlen orig → ¬ dot_at_1_3 orig →
  73 ≤ reslen → reslen ≤ Z.of_nat (length res) →
  ∃ res', ip2revdns inet_pton (Some res) reslen (Some orig) = (0, Some res')
          ∧ cstr res' = spec_ip6_name ip.
Proof.
  intros Hp Hlen Hdot Hcap Hres.
  destruct (inet_pton6_bytes _ _ Hp) as [Hip Hb].
  assert (Hbi : ∀ i, (i < 16)%nat → byte (s6_addr ip i)).
  { intros i Hi. unfold s6_addr. rewrite nth_lookup.
    destruct (ip !! i) as [x|] eqn:E; simpl; [|unfold byte; lia].
    by eapply Forall_lookup_1 in E. }
  destruct (ip6_loop_fits 16 ip res reslen 0 Hbi) as (mem & Hrun & Htake & _ & Hmem);
    [lia | lia |].
  rewrite take_0, app_nil_l in Htake. change (0 + 4 * 16)%nat with 64%nat in *.
  change (Z.of_nat 0) with 0 in Hrun. change (Z.of_nat 64) with 64 in Hrun.
  pose proof (ip6_labels_spec ip Hip Hb) as Hspec.
  unfold ip2revdns. destruct (strlen orig <? 4) eqn:E; bool_Z; [lia|].
  rewrite (ipfamily_of_no_dot _ Hdot), Hp. change (AF_INET6 =? AF_INET) with false.
  cbv iota. rewrite Hrun.
  rewrite snprintf_fits by (unfold strlen; simpl; lia).
  change (strlen (lit "ip6.arpa")) with 8.
  destruct (64 + 8 >=? reslen) eqn:E2; bool_Z; [lia|].
  change (Z.to_nat 64) with 64%nat. rewrite Htake.
  eexists. split; [reflexivity|].
  rewrite app_assoc, Hspec. apply cstr_app_nul. rewrite <- Hspec.
  apply Forall_app_2; [by apply ip6_labels_no_nul | by apply no_nul_forallb].
Qed.

(** X5.  On the IPv6 path the call succeeds exactly when the capacity is at
    least 73, the 72 characters of the name and the terminator. *)
Theorem ip2revdns_ipv6_capacity (orig : list ascii) (ip : list Z) (res : list ascii)
    (reslen : Z) :
  inet_pton AF_INET6 orig = Some ip →
  4 ≤ strlen orig → ¬ dot_at_1_3 orig →
  1 ≤ reslen ≤ Z.of_nat (length res) →
  (ip2revdns inet_pton (Some res) reslen (Some orig)).1 = 0 ↔ 73 ≤ reslen.
Proof.
  intros Hp Hlen Hdot Hcap. split.
  - intros Hok. destruct (Z_lt_le_dec reslen 73) as [Hsmall|]; [|done].
    destruct (ip2revdns_ipv6_too_small orig ip res reslen) as (res' & Hrun & _);
      [done|done|done|lia|lia|].
    rewrite Hrun in Hok. discriminate Hok.
  - intros Hbig.
    destruct (ip2revdns_ipv6_fits orig ip res reslen) as (res' & Hrun & _);
      [done|done|done|done|lia|].
    by rewrite Hrun.
Qed.

Lemma ip2revdns_ipv6_capacity_witness :
  (ip2revdns inet_pton (Some (blank 128)) 72 (Some (lit "2001:db8::1"))).1 = 0 ↔ 73 ≤ 72.
Proof.
  apply (ip2revdns_ipv6_capacity (lit "2001:db8::1")
           [32; 1; 13; 184; 0; 0; 0; 0; 0; 0; 0; 0; 0; 0; 0; 1] (blank 128) 72).
  - reflexivity.
  - by vm_compute.
  - intros [H|[H|H]]; discriminate H.
  - by vm_compute.
Defined.

Lemma dot_at_1_3_dec (orig : list ascii) : dot_at_1_3 orig ∨ ¬ dot_at_1_3 orig.
Proof.
  unfold dot_at_1_3. rewrite <- !is_dot_char_at.
  destruct (is_dot (char_at orig 1)), (is_dot (char_at orig 2)), (is_dot (char_at orig 3));
    auto; right; intros [H|[H|H]]; discriminate H.
Qed.

(** X6.  With the capacity [main] gives, or any capacity of at least 73, the
    call succeeds exactly on the texts that [inet_pton] converts under
    [AF_INET] and on those of at least four characters without a dot at
    index 1, 2 or 3 that it converts under [AF_INET6]. *)
Theorem ip2revdns_accepts (orig : list ascii) (res : list ascii) (reslen : Z) :
  73 ≤ reslen ≤ Z.of_nat (length res) →
  (ip2revdns inet_pton (Some res) reslen (Some orig)).1 = 0
  ↔ (∃ ip, inet_pton AF_INET orig = Some ip)
    ∨ (4 ≤ strlen orig ∧ ¬ dot_at_1_3 orig ∧ ∃ ip, inet_pton AF_INET6 orig = Some ip).
Proof.
  intros Hcap. split.
  - unfold ip2revdns. destruct (strlen orig <? 4) eqn:E; bool_Z; [intros [=]|].
    destruct (dot_at_1_3_dec orig) as [Hdot|Hdot].
    + rewrite (ipfamily_of_dot _ Hdot).
      destruct (inet_pton AF_INET orig) as [ip|]; [|intros [=]]. intros _. left. by exists ip.
    + rewrite (ipfamily_of_no_dot _ Hdot).
      destruct (inet_pton AF_INET6 orig) as [ip|]; [|intros [=]]. intros _. right.
      split; [lia|]. split; [done|]. by exists ip.
  - intros [[ip Hp]|(Hlen & Hdot & ip & Hp)].
    + change (inet_pton AF_INET orig) with (inet_pton4 orig) in Hp.
      destruct (inet_pton4_bytes _ _ Hp) as [Hl _].
      destruct (inet_pton4_shape _ _ Hp) as [Hlen Hdot].
      unfold ip2revdns. destruct (strlen orig <? 4) eqn:E; bool_Z; [lia|].
      rewrite (ipfamily_of_dot _ Hdot). change (inet_pton AF_INET orig) with (inet_pton4 orig).
      by rewrite Hp.
    + destruct (ip2revdns_ipv6_fits orig ip res reslen) as (res' & -> & _);
        [done|done|done|lia|lia|done].
Qed.

Lemma ip2revdns_accepts_witness :
  (ip2revdns inet_pton (Some (blank 128)) 128 (Some (lit "203.0.113"))).1 = 0
  ↔ (∃ ip, inet_pton AF_INET (lit "203.0.113") = Some ip)
    ∨ (4 ≤ strlen (lit "203.0.113") ∧ ¬ dot_at_1_3 (lit "203.0.113")
       ∧ ∃ ip, inet_pton AF_INET6 (lit "203.0.113") = Some ip).
Proof.
  apply (ip2revdns_accepts (lit "203.0.113") (blank 128) 128). by vm_compute.
Defined.

(** ** [ip2revdns]: IPv6 texts with an early dot *)

Lemma lor_shift_bound (val d : Z) :
  0 ≤ val → 0 ≤ d → 0 ≤ Z.lor (Z.shiftl val 4) d ≤ val * 16 + d.
Proof.
  intros Hv Hd.
  assert (Hs : Z.shiftl val 4 = val * 16) by (rewrite Z.shiftl_mul_pow2 by lia; done).
  pose proof (Z.add_lor_land (Z.shiftl val 4) d) as Hadd.
  assert (0 ≤ Z.land (Z.shiftl val 4) d) by (apply Z.land_nonneg; lia).
  assert (0 ≤ Z.lor (Z.shiftl val 4) d) by (apply Z.lor_nonneg; lia).
  lia.
Qed.

Lemma is_digit_not_colon (c : ascii) : is_digit c = true → Ascii.eqb c ":"%char = false.
Proof.
  intros H. apply Ascii.eqb_neq. intros ->. discriminate H.
Qed.

(** One step of the [AF_INET6] scanner on a decimal digit. *)
Lemma inet_pton6_loop_digit (ch : ascii) (src curtok : list ascii) (out : list Z)
    (colonp : option nat) (seen val : Z) :
  is_digit ch = true → seen < 4 → 0 ≤ val < 4096 →
  inet_pton6_loop (ch :: src) curtok out colonp seen val
    = inet_pton6_loop src curtok out colonp (seen + 1)
        (Z.lor (Z.shiftl val 4) (code ch - 48)).
Proof.
  intros Hd Hseen Hval. cbn [inet_pton6_loop]. unfold hex_digit_value.
  unfold is_digit in Hd. rewrite Hd.
  destruct (seen =? 4) eqn:E; bool_Z; [lia|].
  pose proof (lor_shift_bound val (code ch - 48)).
  destruct (_ >? 65535) eqn:E2; bool_Z; [lia|done].
Qed.

(** The scanner on the dot of a trailing dotted quad. *)
Lemma inet_pton6_loop_quad (src curtok : list ascii) (out : list Z) (colonp : option nat)
    (seen val : Z) (quad : list Z) :
  inet_pton4 curtok = Some quad → Z.of_nat (length out) + 4 ≤ 16 →
  inet_pton6_loop ("."%char :: src) curtok out colonp seen val
    = Some (out ++ quad, colonp, 0, val).
Proof.
  intros Hq Hlen. cbn [inet_pton6_loop].
  change (hex_digit_value "."%char) with (@None Z).
  change (Ascii.eqb "."%char ":"%char) with false.
  change (Ascii.eqb "."%char "."%char) with true. cbn [andb].
  destruct (_ <=? 16) eqn:E; bool_Z; [|lia]. by rewrite Hq.
Qed.

(** No text is converted under both families. *)
Lemma inet_pton_families_disjoint (src : list ascii) (quad : list Z) :
  inet_pton4 src = Some quad → inet_pton6 src = None.
Proof.
  intros Hq. pose proof Hq as H. unfold inet_pton4 in H.
  destruct (inet_pton4_bytes _ _ Hq) as [Hl4 _].
  assert (Hend : ∀ val : Z,
            (Some (([] : list Z) ++ quad, @None nat, 0, val)
               ≫= λ '(out, colonp, seen, val),
                    (if 0 <? seen then
                       if 16 <? Z.of_nat (length out) + 2 then None else Some (store16 out val)
                     else Some out)
                    ≫= λ out, match colonp with
                              | Some k =>
                                  if Z.of_nat (length out) =? 16 then None
                                  else Some (take k out ++ replicate (16 - length out) 0
                                             ++ drop k out)
                              | None => Some out
                              end
                    ≫= λ out, if Z.of_nat (length out) =? 16 then Some out else None)
            = None).
  { intros val. cbn. by rewrite Hl4. }
  destruct src as [|c0 src]; [done|].
  apply inet_pton4_loop_step in H as [(D0 & _ & _ & _ & H)|(_ & ? & _)]; [|done].
  pose proof (is_digit_range _ D0) as R0.
  unfold inet_pton6. rewrite (is_digit_not_colon _ D0). cbn [mbind option_bind].
  rewrite inet_pton6_loop_digit by (done || lia).
  pose proof (lor_shift_bound 0 (code c0 - 48)) as B0.
  set (v0 := Z.lor (Z.shiftl 0 4) (code c0 - 48)) in *.
  destruct src as [|c1 src]; [done|].
  apply inet_pton4_loop_step in H as [(D1 & _ & _ & _ & H)|(-> & _ & _ & H)].
  - pose proof (is_digit_range _ D1) as R1.
    rewrite inet_pton6_loop_digit by (done || lia).
    pose proof (lor_shift_bound v0 (code c1 - 48)) as B1.
    set (v1 := Z.lor (Z.shiftl v0 4) (code c1 - 48)) in *.
    destruct src as [|c2 src]; [done|].
    apply inet_pton4_loop_step in H as [(D2 & _ & _ & _ & H)|(-> & _ & _ & H)].
    + pose proof (is_digit_range _ D2) as R2.
      rewrite inet_pton6_loop_digit by (done || lia).
      destruct src as [|c3 src]; [done|].
      apply inet_pton4_loop_step in H as [(D3 & Z3 & N3 & _ & H)|(-> & _ & _ & H)].
      * destruct (inet_pton4_shape _ _ Hq) as [_ [Hd|[Hd|Hd]]]; injection Hd as ->;
          discriminate.
      * rewrite (inet_pton6_loop_quad _ _ _ _ _ _ quad) by (done || simpl; lia).
        apply Hend.
    + rewrite (inet_pton6_loop_quad _ _ _ _ _ _ quad) by (done || simpl; lia). apply Hend.
  - rewrite (inet_pton6_loop_quad _ _ _ _ _ _ quad) by (done || simpl; lia). apply Hend.
Qed.

(** X7.  Every text that [inet_pton] converts under [AF_INET6] and that has a
    dot at index 1, 2 or 3, such as an address ending in a dotted quad after
    a short head, is rejected: it is tried as IPv4 only. *)
Theorem ip2revdns_rejects_early_dot (orig : list ascii) (ip : list Z) (res : list ascii)
    (reslen : Z) :
  inet_pton AF_INET6 orig = Some ip → dot_at_1_3 orig →
  ip2revdns inet_pton (Some res) reslen (Some orig) = (-1, Some (<[0%nat := NUL]> res)).
Proof.
  intros Hp Hdot. unfold ip2revdns. destruct (strlen orig <? 4); [done|].
  rewrite (ipfamily_of_dot _ Hdot). change (inet_pton AF_INET orig) with (inet_pton4 orig).
  destruct (inet_pton4 orig) as [quad|] eqn:Hq; [|done].
  apply inet_pton_families_disjoint in Hq.
  change (inet_pton AF_INET6 orig) with (inet_pton6 orig) in Hp. congruence.
Qed.

Lemma ip2revdns_rejects_early_dot_witness :
  ip2revdns inet_pton (Some (blank 128)) 128 (Some (lit "::7.0.2.55"))
    = (-1, Some (<[0%nat := NUL]> (blank 128))).
Proof.
  apply (ip2revdns_rejects_early_dot (lit "::7.0.2.55")
           [0; 0; 0; 0; 0; 0; 0; 0; 0; 0; 0; 0; 7; 0; 2; 55] (blank 128) 128).
  - reflexivity.
  - right. right. reflexivity.
Defined.

(** ** [main]: the command line and the prefix *)

(** X8.  What the copy loop of [main] leaves in [prefix]: at most [n]
    characters, none of them a slash, taken from the start of the
    argument. *)
Theorem cut_prefix_bounded (n : nat) (prefixorg : list ascii) :
  (length (cut_prefix n prefixorg) ≤ n)%nat
  ∧ ("/"%char ∉ cut_prefix n prefixorg)
  ∧ (cut_prefix n prefixorg) `prefix_of` prefixorg.
Proof.
  revert prefixorg. induction n as [|n IH]; intros [|c s]; cbn [cut_prefix];
    try (split; [simpl; lia|]; split; [apply not_elem_of_nil|apply prefix_nil]).
  destruct (Ascii.eqb c "/"%char) eqn:E.
  - split; [simpl; lia|]. split; [apply not_elem_of_nil|apply prefix_nil].
  - apply Ascii.eqb_neq in E. destruct (IH s) as (H1 & H2 & H3).
    split; [simpl; lia|]. split.
    + rewrite not_elem_of_cons. split; [congruence|done].
    + by apply prefix_cons.
Qed.

(** X9.  An address without a slash that fits is kept whole, and what follows
    a slash after it is dropped. *)
Theorem cut_prefix_strips (n : nat) (addr suffix : list ascii) :
  "/"%char ∉ addr → (length addr ≤ n)%nat →
  cut_prefix n addr = addr ∧ cut_prefix n (addr ++ "/"%char :: suffix) = addr.
Proof.
  revert n. induction addr as [|c addr IH]; intros n Hno Hlen.
  - split; destruct n; cbn [cut_prefix app]; done.
  - apply not_elem_of_cons in Hno as [Hc Hno].
    destruct n as [|n]; [simpl in Hlen; lia|]. cbn [cut_prefix app].
    destruct (Ascii.eqb c "/"%char) eqn:E; [apply Ascii.eqb_eq in E; congruence|].
    destruct (IH n Hno) as [-> ->]; [simpl in Hlen; lia|]. done.
Qed.

Lemma cut_prefix_strips_witness :
  cut_prefix 127 (lit "2001:db8::") = lit "2001:db8::"
  ∧ cut_prefix 127 (lit "2001:db8::" ++ "/"%char :: lit "32") = lit "2001:db8::".
Proof.
  apply (cut_prefix_strips 127 (lit "2001:db8::") (lit "32")).
  - intros H. apply list_elem_of_In in H. simpl in H.
    repeat (destruct H as [H|H]; [discriminate H|]). done.
  - simpl. lia.
Defined.

Lemma streq_refl (a : list ascii) : streq a a = true.
Proof. induction a as [|x a IH]; [done|]. cbn [streq]. by rewrite Ascii.eqb_refl, IH. Qed.

Lemma streq_neq (a b : list ascii) : a ≠ b → streq a b = false.
Proof.
  intros Hne. destruct (streq a b) eqn:E; [|done]. by apply streq_eq in E.
Qed.

Section MainCommandLine.

Context {packet ns_msg ns_rr : Type}.
Variable pton : Z → list ascii → option (list Z).
Variable res_query : list ascii → Z → Z → Z → Z * packet.
Variable ns_initparse : packet → Z → option ns_msg.
Variable ns_msg_count : ns_msg → Z.
Variable ns_parserr : ns_msg → Z → option ns_rr.
Variable ns_rr_rdata : ns_rr → list ascii.
Variable inet_addr : list ascii → Z.
Variable strerror : Z → list ascii.

Local Abbreviation main' :=
  (main pton res_query ns_initparse ns_msg_count ns_parserr ns_rr_rdata inet_addr strerror).

(** X10.  A command line that is neither [resolve] with one argument nor
    [advertise] with three gets the help, the version and usage text and
    then the examples, and status 1; no system call is made. *)
Theorem main_usage (argv : list (list ascii)) (revdns0 rdeaddr0 : list ascii) (w : os) :
  ¬ (length argv = 3%nat ∧ argv !! 1%nat = Some (lit "resolve")) →
  ¬ (length argv = 5%nat ∧ argv !! 1%nat = Some (lit "advertise")) →
  main' argv revdns0 rdeaddr0 w
    = Some (1, mkOs (script w) (errno w)
                 (trace w ++ [Stdout help_text; Stdout help_examples])).
Proof.
  intros H3 H5.
  assert (Hargs : parse_args argv = None).
  { unfold parse_args.
    destruct argv as [|a0 [|a1 [|a2 [|a3 [|a4 [|a5 rest]]]]]]; try done.
    - rewrite streq_neq; [done|]. intros ->. by apply H3.
    - rewrite streq_neq; [done|]. intros ->. by apply H5. }
  unfold main. rewrite Hargs. unfold printhelp, printf, log. cbn [script errno trace].
  rewrite <- app_assoc. reflexivity.
Qed.

(** X11.  The [resolve] action prints exactly one line and makes no system
    call; its status is 1 when the reverse name cannot be built and 0
    otherwise, whatever the resolution gave. *)
Theorem main_resolve_prints_once (arg0 prefixorg revdns0 rdeaddr0 : list ascii) (w w' : os)
    (status : Z) :
  main' [arg0; lit "resolve"; prefixorg] revdns0 rdeaddr0 w = Some (status, w') →
  script w' = script w
  ∧ (∃ text, trace w' = trace w ++ [Stdout text])
  ∧ (status = 1 ↔ (ip2revdns pton (Some revdns0) 128 (Some (cut_prefix 127 prefixorg))).1 ≠ 0)
  ∧ (status = 0 ∨ status = 1).
Proof.
  unfold main. cbn [parse_args]. change (streq (lit "resolve") (lit "resolve")) with true.
  cbv iota.
  destruct (ip2revdns pton (Some revdns0) 128 (Some (cut_prefix 127 prefixorg)))
    as [r [revdns|]]; [|done]. cbn [fst].
  destruct (r =? 0) eqn:E; bool_Z; cbn [negb].
  - subst r. intros H. apply bind_Some in H as ([i rdeaddr] & _ & H).
    change (RESOLVE =? RESOLVE) with true in H. cbv iota in H. injection H as <- <-.
    split; [by destruct (i =? 0), (i >? 0)|]. split; [|split; [|by left]].
    + destruct (i =? 0); [|destruct (i >? 0)]; eexists; reflexivity.
    + split; [intros [=]|done].
  - intros [= <- <-]. split; [done|]. split; [eexists; reflexivity|].
    split; [|by right]. split; done.
Qed.

End MainCommandLine.

Lemma main_usage_witness :
  sample_main NoAnswer [lit "rpp"; lit "resolve"] (blank 128) (blank 128) (mkOs [] 0 [])
    = Some (1, mkOs [] 0 ([] ++ [Stdout help_text; Stdout help_examples])).
Proof.
  apply (main_usage inet_pton (sample_query NoAnswer) sample_initparse sample_count
           sample_parserr id sample_inet_addr sample_strerror [lit "rpp"; lit "resolve"]
           (blank 128) (blank 128) (mkOs [] 0 [])).
  - intros [H _]. discriminate H.
  - intros [H _]. discriminate H.
Defined.

Lemma main_resolve_prints_once_witness :
  let w := mkOs [(3, 0)] 0 [] in
  let w' := mkOs [(3, 0)] 0 [Stdout (lit "No RDE entry found for 203.0.113.0/24" ++ [LF])] in
  script w' = script w
  ∧ (∃ text, trace w' = trace w ++ [Stdout text])
  ∧ (0 = 1 ↔ (ip2revdns inet_pton (Some (blank 128)) 128
                 (Some (cut_prefix 127 (lit "203.0.113.0/24")))).1 ≠ 0)
  ∧ (0 = 0 ∨ 0 = 1).
Proof.
  intros w w'.
  apply (main_resolve_prints_once inet_pton (sample_query NoAnswer) sample_initparse
           sample_count sample_parserr id sample_inet_addr sample_strerror
           (lit "rpp") (lit "203.0.113.0/24") (blank 128) (blank 128) w w' 0).
  reflexivity.
Defined.

(** ** [advertise_inpref_to_remote_dst]: every exit path *)

(** Runs through the calls of the advertiser: one goal for each exit, the
    events of the run written out after those of the start. *)
Ltac advertise_run Ha :=
  try unfold advertise_inpref_to_remote_dst in Ha;
  repeat match type of Ha with
  | (let '(_, _) := ?c in _) = _ =>
      let H := fresh "Hcall" in
      let r := fresh "r" in
      let w := fresh "w" in
      destruct c as [r w] eqn:H;
      first [apply socket_trace in H | apply connect_trace in H | apply send_trace in H]
  | (if ?b then _ else _) = _ =>
      let E := fresh "E" in destruct b eqn:E
  end;
  injection Ha as <- <-; unfold close, send_failed, printf, log; cbn [trace];
  repeat match goal with H : trace _ = _ |- _ => rewrite H; clear H end;
  rewrite <- ?app_assoc.

Lemma setinpref_segments (ttl : Z) (locpreflist preflist : list ascii) :
  setinpref ttl locpreflist preflist
  = (lit "SETINPREF " ++ fmt_d ttl ++ [TAB]) ++ locpreflist ++ [TAB] ++ preflist ++ [CR; LF].
Proof. unfold setinpref. by rewrite <- !app_assoc. Qed.

Ltac prefix_chain :=
  repeat first
    [ apply prefix_nil
    | apply prefix_app
    | apply prefix_cons
    | apply prefix_app_r, prefix_take ].

Section AdvertiseExits.

Variable inet_addr : list ascii → Z.
Variable strerror : Z → list ascii.

Local Abbreviation advertise := (advertise_inpref_to_remote_dst inet_addr strerror).

(** X12.  The value returned tells how far the call went: it lies between -7
    and 0, and the number of [send] calls made is 0 for -1 and -2, one more
    for each further code down to 5 for -7, and 5 for 0. *)
Theorem advertise_stage (locpreflist : list ascii) (ttl : Z)
    (servstringaddr preflist : list ascii) (w w' : os) (r : Z) :
  advertise locpreflist ttl servstringaddr preflist w = (r, w') →
  ∃ tr, trace w' = trace w ++ tr
        ∧ -7 ≤ r ≤ 0
        ∧ Z.of_nat (count_sends tr) = (if r =? 0 then 5 else Z.max 0 (- r - 2)).
Proof.
  intros Ha. advertise_run Ha; eexists; (split; [reflexivity|]); split; (lia || reflexivity).
Qed.

(** X13.  Whatever happens, what the socket has carried is a leading part of the
    message: the pieces go out in order, and nothing else is ever sent. *)
Theorem advertise_sends_prefix (locpreflist : list ascii) (ttl : Z)
    (servstringaddr preflist : list ascii) (w w' : os) (r : Z) :
  strlen locpreflist < 2 ^ 32 → strlen preflist < 2 ^ 32 →
  advertise locpreflist ttl servstringaddr preflist w = (r, w') →
  ∃ tr, trace w' = trace w ++ tr
        ∧ ∀ fd, (sent_bytes fd tr) `prefix_of` (setinpref ttl locpreflist preflist).
Proof.
  intros Hloc Hpref Ha.
  assert (Hu1 : to_unsigned (strlen locpreflist) = strlen locpreflist)
    by (apply Z.mod_small; unfold strlen in *; lia).
  assert (Hu2 : to_unsigned (strlen preflist) = strlen preflist)
    by (apply Z.mod_small; unfold strlen in *; lia).
  unfold advertise_inpref_to_remote_dst in Ha. rewrite Hu1, Hu2 in Ha. clear Hu1 Hu2.
  advertise_run Ha; bool_Z; subst; (eexists; split; [reflexivity|]); intros fd;
    cbn [sent_bytes app]; rewrite setinpref_segments;
    try match goal with |- context [?s =? fd] => destruct (s =? fd) end;
    rewrite ?take_strlen, ?app_nil_r; cbn [app];
    try apply prefix_nil.
  all: rewrite ?take_strlen.
  all: try change (take (Z.to_nat 1) [TAB]) with [TAB].
  all: try change (take (Z.to_nat 2) [CR; LF]) with [CR; LF].
  all: prefix_chain.
  - apply (prefix_app_r _ [TAB]), prefix_take.
  - apply prefix_take.
Qed.

End AdvertiseExits.

Lemma advertise_stage_witness :
  ∃ tr, trace (mkOs [(2, 0); (0, 0); (9, 0)] 0
                 [Socket PF_INET SOCK_STREAM IPPROTO_TCP 3;
                  Connect 3 AF_INET 0 [16; 247] 0;
                  Send 3 (lit "SETINPREF 3600" ++ [TAB]) MSG_MORE 15;
                  Send 3 (lit "192.0.2.0/24") MSG_MORE 5;
                  Stdout (lit "ERROR: failed to send routing prefs to 192.0.2.55 (Unknown error)"
                          ++ [LF]);
                  Close 3])
        = [] ++ tr
        ∧ -7 ≤ -4 ≤ 0
        ∧ Z.of_nat (count_sends tr) = (if -4 =? 0 then 5 else Z.max 0 (- -4 - 2)).
Proof.
  apply (advertise_stage sample_inet_addr sample_strerror (lit "192.0.2.0/24") 3600
           (lit "192.0.2.55") (lit "64552:0")
           (mkOs [(3, 0); (0, 0); (15, 0); (5, 0); (2, 0); (0, 0); (9, 0)] 0 [])).
  reflexivity.
Defined.

Lemma advertise_sends_prefix_witness :
  ∃ tr, trace (mkOs [(2, 0); (0, 0); (9, 0)] 0
                 [Socket PF_INET SOCK_STREAM IPPROTO_TCP 3;
                  Connect 3 AF_INET 0 [16; 247] 0;
                  Send 3 (lit "SETINPREF 3600" ++ [TAB]) MSG_MORE 15;
                  Send 3 (lit "192.0.2.0/24") MSG_MORE 5;
                  Stdout (lit "ERROR: failed to send routing prefs to 192.0.2.55 (Unknown error)"
                          ++ [LF]);
                  Close 3])
        = [] ++ tr
        ∧ ∀ fd, (sent_bytes fd tr)
                `prefix_of` (setinpref 3600 (lit "192.0.2.0/24") (lit "64552:0")).
Proof.
  apply (advertise_sends_prefix sample_inet_addr sample_strerror (lit "192.0.2.0/24") 3600
           (lit "192.0.2.55") (lit "64552:0")
           (mkOs [(3, 0); (0, 0); (15, 0); (5, 0); (2, 0); (0, 0); (9, 0)] 0 []) _ (-4)).
  - by vm_compute.
  - by vm_compute.
  - reflexivity.
Defined.

Lemma advertise_closes_after_connect_witness :
  ∃ sock,
    Socket PF_INET SOCK_STREAM IPPROTO_TCP sock
      ∈ [Socket PF_INET SOCK_STREAM IPPROTO_TCP 3;
         Connect 3 AF_INET 0 [16; 247] 0;
         Send 3 (lit "SETINPREF 3600" ++ [TAB]) MSG_MORE (-1);
         Stdout (lit "ERROR: failed to send routing prefs to 192.0.2.55 (Connection refused)"
                 ++ [LF]);
         Close 3]
    ∧ last [Socket PF_INET SOCK_STREAM IPPROTO_TCP 3;
            Connect 3 AF_INET 0 [16; 247] 0;
            Send 3 (lit "SETINPREF 3600" ++ [TAB]) MSG_MORE (-1);
            Stdout (lit "ERROR: failed to send routing prefs to 192.0.2.55 (Connection refused)"
                    ++ [LF]);
            Close 3]
      = Some (Close sock).
Proof.
  apply (advertise_closes_after_connect sample_inet_addr sample_strerror (lit "192.0.2.0/24")
           3600 (lit "192.0.2.55") (lit "64552:0") (mkOs [(3, 0); (0, 0); (-1, 111)] 0 [])
           (mkOs [] 111 _) (-3)).
  - reflexivity.
  - lia.
  - lia.
Defined.

(** ** [rpp_getcontroller]: what a return of 0 means *)

Lemma not_rde_false (rdata : list ascii) : not_rde rdata = Some false → has_tag rdata.
Proof.
  unfold not_rde, has_tag.
  destruct (rdata !! 1%nat) as [c1|]; [|done]. cbn [mbind option_bind].
  destruct (Ascii.eqb c1 "R"%char) eqn:E1; [|done]. apply Ascii.eqb_eq in E1 as ->.
  destruct (rdata !! 2%nat) as [c2|]; [|done]. cbn [mbind option_bind negb].
  destruct (Ascii.eqb c2 "D"%char) eqn:E2; [|done]. apply Ascii.eqb_eq in E2 as ->.
  destruct (rdata !! 3%nat) as [c3|]; [|done]. cbn [mbind option_bind negb].
  destruct (Ascii.eqb c3 "E"%char) eqn:E3; [|done]. apply Ascii.eqb_eq in E3 as ->.
  destruct (rdata !! 4%nat) as [c4|]; [|done]. cbn [mbind option_bind negb].
  destruct (Ascii.eqb c4 ":"%char) eqn:E4; [|done]. apply Ascii.eqb_eq in E4 as ->.
  done.
Qed.

Lemma not_rde_true (rdata : list ascii) : not_rde rdata = Some true → ¬ has_tag rdata.
Proof.
  intros H Htag. by rewrite (not_rde_tagged _ Htag) in H.
Qed.

(** What the copy does when it is defined. *)
Lemma copy_controller_inv (result : list ascii) (maxres : Z) (rdata : list ascii)
    (st : Z) (result' : list ascii) :
  copy_controller result maxres rdata = Some (st, result') →
  ∃ declared,
    rdata !! 0%nat = Some declared
    ∧ 0 ≤ Z.min (code declared) maxres - 4
    ∧ 5 + (Z.min (code declared) maxres - 4) ≤ Z.of_nat (length rdata)
    ∧ st = 0
    ∧ result' = <[Z.to_nat (Z.min (code declared) maxres - 4) := NUL]>
                  (list_inserts 0
                     (take (Z.to_nat (Z.min (code declared) maxres - 4)) (drop 5 rdata))
                     result).
Proof.
  unfold copy_controller, memcpy. intros H.
  apply bind_Some in H as (declared & H0 & H). exists declared. split; [done|].
  replace (if code declared <? maxres then code declared else maxres)
    with (Z.min (code declared) maxres) in H
    by (destruct (code declared <? maxres) eqn:E; bool_Z; lia).
  set (n := Z.min (code declared) maxres - 4) in *.
  destruct (n <? 0) eqn:E1; bool_Z; [done|].
  destruct (_ <? _ + n) eqn:E2; bool_Z; [done|].
  cbn [mbind option_bind] in H. injection H as <- <-. repeat split; (done || lia).
Qed.

Section ResolverResults.

Context {packet ns_msg ns_rr : Type}.
Variable res_query : list ascii → Z → Z → Z → Z * packet.
Variable ns_initparse : packet → Z → option ns_msg.
Variable ns_msg_count : ns_msg → Z.
Variable ns_parserr : ns_msg → Z → option ns_rr.
Variable ns_rr_rdata : ns_rr → list ascii.

Local Abbreviation answers_loop' := (answers_loop ns_parserr ns_rr_rdata).
Local Abbreviation rpp_getcontroller' :=
  (rpp_getcontroller res_query ns_initparse ns_msg_count ns_parserr ns_rr_rdata).
Local Abbreviation skipped := (skipped_record ns_parserr ns_rr_rdata).

(** A loop that returns 0 has met a record with the tag, after records
    that parsed and did not carry it, and has copied from that record. *)
Lemma answers_loop_success (n : nat) (i : Z) (msg : ns_msg) (result : list ascii) (maxres : Z)
    (result' : list ascii) :
  answers_loop' n i msg result maxres = Some (0, result') →
  ∃ k rr, i ≤ k < i + Z.of_nat n
          ∧ ns_parserr msg k = Some rr ∧ has_tag (ns_rr_rdata rr)
          ∧ (∀ j, i ≤ j < k →
               ∃ rr', ns_parserr msg j = Some rr' ∧ ¬ has_tag (ns_rr_rdata rr'))
          ∧ copy_controller result maxres (ns_rr_rdata rr) = Some (0, result').
Proof.
  revert i. induction n as [|n IH]; intros i Hrun; [discriminate Hrun|].
  cbn [answers_loop] in Hrun. destruct (ns_parserr msg i) as [rr|] eqn:Hrr; [|discriminate Hrun].
  apply bind_Some in Hrun as ([] & Hskip & Hrun).
  - apply IH in Hrun as (k & rr' & Hk & Hp & Htag & Hbefore & Hcopy).
    exists k, rr'. split; [lia|]. split; [done|]. split; [done|]. split; [|done].
    intros j Hj. destruct (Z.eq_dec j i) as [->|].
    + exists rr. split; [done|]. by apply not_rde_true.
    + apply Hbefore. lia.
  - exists i, rr. split; [lia|]. split; [done|]. split; [by apply not_rde_false|].
    split; [intros; lia|done].
Qed.

(** X15.  A return of 0 comes from the first record that carries the tag: the
    query succeeded, the response parsed, every record before parsed
    without the tag, and the result is that record's data from offset 5, cut
    to [min(declared, capacity) - 4] bytes and followed by a NUL. *)
Theorem rpp_getcontroller_success (result : list ascii) (maxres : Z) (revname : list ascii)
    (result' : list ascii) :
  rpp_getcontroller' result maxres revname = Some (0, result') →
  ∃ len answer msg k rr declared,
    res_query revname C_IN T_TXT 512 = (len, answer) ∧ 0 ≤ len
    ∧ ns_initparse answer len = Some msg
    ∧ 0 ≤ k < ns_msg_count msg
    ∧ ns_parserr msg k = Some rr ∧ has_tag (ns_rr_rdata rr)
    ∧ (∀ j, 0 ≤ j < k → ∃ rr', ns_parserr msg j = Some rr' ∧ ¬ has_tag (ns_rr_rdata rr'))
    ∧ ns_rr_rdata rr !! 0%nat = Some declared
    ∧ 4 ≤ Z.min (code declared) maxres
    ∧ result' = <[Z.to_nat (Z.min (code declared) maxres - 4) := NUL]>
                  (list_inserts 0
                     (take (Z.to_nat (Z.min (code declared) maxres - 4))
                        (drop 5 (ns_rr_rdata rr)))
                     result).
Proof.
  unfold rpp_getcontroller. destruct (res_query revname C_IN T_TXT 512) as [len answer] eqn:Hq.
  destruct (len <? 0) eqn:E; bool_Z; [intros [=]|].
  destruct (ns_initparse answer len) as [msg|] eqn:Hparse; [|intros [=]].
  destruct (ns_msg_count msg =? 0) eqn:E0; bool_Z; [intros [=]|].
  intros Hrun. apply answers_loop_success in Hrun as (k & rr & Hk & Hp & Htag & Hbefore & Hcopy).
  apply copy_controller_inv in Hcopy as (declared & H0 & Hn & _ & _ & ->).
  exists len, answer, msg, k, rr, declared.
  split; [done|]. split; [lia|]. split; [done|]. split; [lia|]. split; [done|].
  split; [done|]. split; [|split; [done|split; [lia|done]]].
  intros j Hj. apply Hbefore. lia.
Qed.

(** X16.  A defined call keeps the length of the result and never writes at or
    past index [maxres - 3]; after a return of 0 the result holds a string
    of at most [maxres - 4] characters. *)
Theorem rpp_getcontroller_bounded (result : list ascii) (maxres : Z) (revname : list ascii)
    (st : Z) (result' : list ascii) :
  rpp_getcontroller' result maxres revname = Some (st, result') →
  length result' = length result
  ∧ drop (Z.to_nat (maxres - 3)) result' = drop (Z.to_nat (maxres - 3)) result
  ∧ (st = 0 → maxres ≤ Z.of_nat (length result) → strlen (cstr result') ≤ maxres - 4).
Proof.
  intros Hrun. destruct (Z.eq_dec st 0) as [->|Hst].
  - unfold rpp_getcontroller in Hrun.
    destruct (res_query revname C_IN T_TXT 512) as [len answer].
    destruct (len <? 0); [discriminate Hrun|].
    destruct (ns_initparse answer len) as [msg|]; [|discriminate Hrun].
    destruct (ns_msg_count msg =? 0); [discriminate Hrun|].
    apply answers_loop_success in Hrun as (k & rr & _ & _ & _ & _ & Hcopy).
    apply copy_controller_inv in Hcopy as (declared & _ & Hn & _ & _ & ->).
    set (n := Z.min (code declared) maxres - 4) in *.
    split; [by rewrite length_insert, length_inserts|]. split.
    + rewrite drop_insert_lt by lia. apply list_eq. intros i. rewrite !lookup_drop.
      apply list_lookup_inserts_ge. rewrite length_take. lia.
    + intros _ Hcap. assert (Hi : (Z.to_nat n < length result)%nat) by lia.
      pose proof (list_lookup_insert_eq
                    (list_inserts 0 (take (Z.to_nat n) (drop 5 (ns_rr_rdata rr))) result)
                    (Z.to_nat n) NUL) as Hnul.
      rewrite length_inserts in Hnul. apply cstr_length_le in Hnul; [|done].
      unfold strlen. lia.
  - apply rpp_getcontroller_frame in Hrun as ->; [|done]. split; [done|]. split; [done|].
    intros ->. done.
Qed.

(** X17.  The address published in a TXT record comes back: when the first
    record with the tag is one character-string [RDE:] followed by [addr],
    the result holds [addr], cut to [maxres - 4] characters when the
    capacity is smaller. *)
Theorem rpp_getcontroller_roundtrip (result : list ascii) (maxres : Z) (revname : list ascii)
    (len : Z) (answer : packet) (msg : ns_msg) (k : Z) (rr : ns_rr) (addr rest : list ascii) :
  res_query revname C_IN T_TXT 512 = (len, answer) → 0 ≤ len →
  ns_initparse answer len = Some msg →
  0 ≤ k < ns_msg_count msg →
  (∀ j, 0 ≤ j < k → skipped msg j) →
  ns_parserr msg k = Some rr →
  ns_rr_rdata rr = ascii_of_nat (4 + length addr) :: lit "RDE:" ++ addr ++ rest →
  (4 + length addr ≤ 255)%nat → Forall (λ c, c ≠ NUL) addr →
  4 ≤ maxres ≤ Z.of_nat (length result) →
  ∃ result', rpp_getcontroller' result maxres revname = Some (0, result')
             ∧ cstr result' = take (Z.to_nat (maxres - 4)) addr.
Proof.
  intros Hq Hlen Hparse Hk Hskip Hrr Hdata Haddr Hnul Hcap.
  assert (Hcode : code (ascii_of_nat (4 + length addr)) = Z.of_nat (4 + length addr)).
  { unfold code. rewrite <- (nat_ascii_embedding (4 + length addr)) at 2 by lia.
    unfold nat_of_ascii. by rewrite N_nat_Z. }
  unfold rpp_getcontroller. rewrite Hq.
  destruct (len <? 0) eqn:E; bool_Z; [lia|]. rewrite Hparse.
  destruct (ns_msg_count msg =? 0) eqn:E0; bool_Z; [lia|].
  replace (Z.to_nat (ns_msg_count msg))
    with (Z.to_nat k + S (Z.to_nat (ns_msg_count msg - k - 1)))%nat by lia.
  rewrite answers_loop_skip by (intros; apply Hskip; lia).
  cbn [answers_loop]. replace (0 + Z.of_nat (Z.to_nat k)) with k by lia.
  rewrite Hrr, not_rde_tagged by (rewrite Hdata; done). cbn [mbind option_bind].
  assert (Hdlen : length (ns_rr_rdata rr) = (5 + length addr + length rest)%nat).
  { rewrite Hdata. cbn [lit list_ascii_of_string app length]. rewrite length_app. lia. }
  pose proof (copy_controller_fits result maxres (ns_rr_rdata rr)
                (ascii_of_nat (4 + length addr))) as Hfit.
  rewrite Hcode in Hfit. cbv zeta in Hfit.
  rewrite Hfit; [|by rewrite Hdata|lia|lia|lia]. clear Hfit.
  eexists. split; [reflexivity|].
  rewrite Hdata. change (drop 5 (_ :: lit "RDE:" ++ addr ++ rest)) with (addr ++ rest).
  rewrite take_app_le by lia.
  rewrite cstr_app_nul by (by apply Forall_take).
  destruct (Z_le_gt_dec (Z.of_nat (4 + length addr)) maxres).
  - rewrite Z.min_l by lia. rewrite !take_ge by lia. done.
  - rewrite Z.min_r by lia. done.
Qed.

(** X18.  A record with the tag whose length byte, or the capacity, is below 4
    makes the length handed to [memcpy] negative: the behaviour is
    undefined. *)
Theorem rpp_getcontroller_short_record (result : list ascii) (maxres : Z) (revname : list ascii)
    (len : Z) (answer : packet) (msg : ns_msg) (k : Z) (rr : ns_rr) (declared : ascii) :
  res_query revname C_IN T_TXT 512 = (len, answer) → 0 ≤ len →
  ns_initparse answer len = Some msg →
  0 ≤ k < ns_msg_count msg →
  (∀ j, 0 ≤ j < k → skipped msg j) →
  ns_parserr msg k = Some rr → has_tag (ns_rr_rdata rr) →
  ns_rr_rdata rr !! 0%nat = Some declared →
  Z.min (code declared) maxres < 4 →
  rpp_getcontroller' result maxres revname = None.
Proof.
  intros Hq Hlen Hparse Hk Hskip Hrr Htag H0 Hshort.
  unfold rpp_getcontroller. rewrite Hq.
  destruct (len <? 0) eqn:E; bool_Z; [lia|]. rewrite Hparse.
  destruct (ns_msg_count msg =? 0) eqn:E0; bool_Z; [lia|].
  replace (Z.to_nat (ns_msg_count msg))
    with (Z.to_nat k + S (Z.to_nat (ns_msg_count msg - k - 1)))%nat by lia.
  rewrite answers_loop_skip by (intros; apply Hskip; lia).
  cbn [answers_loop]. replace (0 + Z.of_nat (Z.to_nat k)) with k by lia.
  rewrite Hrr, not_rde_tagged by done. cbn [mbind option_bind].
  destruct (copy_controller result maxres (ns_rr_rdata rr)) as [[st r']|] eqn:Hc; [|done].
  apply copy_controller_inv in Hc as (d & Hd & Hn & _). rewrite H0 in Hd. injection Hd as <-.
  lia.
Qed.

End ResolverResults.

Lemma rpp_getcontroller_success_witness :
  ∃ k rr, sample_parserr [Some (txt "v=spf1 -all"); Some (txt "RDE:198.51.100.7")] k = Some rr
          ∧ has_tag rr.
Proof.
  destruct (rpp_getcontroller_success
              (sample_query (Records [Some (txt "v=spf1 -all"); Some (txt "RDE:198.51.100.7")]))
              sample_initparse sample_count sample_parserr id (blank 128) 128
              (lit "7.100.51.198.in-addr.arpa") (lit "198.51.100.7" ++ NUL :: blank 115)
              eq_refl)
    as (len & answer & msg & k & rr & declared & Hq & _ & Hparse & _ & Hrr & Htag & _).
  injection Hq as _ <-. injection Hparse as <-. by exists k, rr.
Defined.

Lemma rpp_getcontroller_bounded_witness :
  length (lit "198.51" ++ NUL :: blank 121) = length (blank 128)
  ∧ drop (Z.to_nat (10 - 3)) (lit "198.51" ++ NUL :: blank 121)
    = drop (Z.to_nat (10 - 3)) (blank 128)
  ∧ (0 = 0 → 10 ≤ Z.of_nat (length (blank 128)) →
     strlen (cstr (lit "198.51" ++ NUL :: blank 121)) ≤ 10 - 4).
Proof.
  apply (rpp_getcontroller_bounded
           (sample_query (Records [Some (txt "RDE:198.51.100.7")]))
           sample_initparse sample_count sample_parserr id (blank 128) 10
           (lit "7.100.51.198.in-addr.arpa") 0 (lit "198.51" ++ NUL :: blank 121)).
  reflexivity.
Defined.

Lemma rpp_getcontroller_roundtrip_witness :
  ∃ result',
    sample_getcontroller (Records [Some (txt "v=spf1 -all"); Some (txt "RDE:192.0.2.55")])
      (blank 128) 128 (lit "0.113.0.203.in-addr.arpa") = Some (0, result')
    ∧ cstr result' = take (Z.to_nat (128 - 4)) (lit "192.0.2.55").
Proof.
  set (rrs := [Some (txt "v=spf1 -all"); Some (txt "RDE:192.0.2.55")]).
  apply (rpp_getcontroller_roundtrip (sample_query (Records rrs)) sample_initparse
           sample_count sample_parserr id (blank 128) 128 (lit "0.113.0.203.in-addr.arpa")
           64 (Records rrs) rrs 1 (txt "RDE:192.0.2.55") (lit "192.0.2.55") []).
  - reflexivity.
  - lia.
  - reflexivity.
  - by vm_compute.
  - intros j Hj. assert (j = 0) as -> by lia.
    exists (txt "v=spf1 -all"). split; [reflexivity|]. split; [simpl; lia|].
    intros (H & _). discriminate H.
  - reflexivity.
  - reflexivity.
  - simpl. lia.
  - by apply no_nul_forallb.
  - by vm_compute.
Defined.

Lemma rpp_getcontroller_short_record_witness :
  sample_getcontroller (Records [Some ("003"%char :: lit "RDE:192.0.2.55")])
    (blank 128) 128 (lit "0.113.0.203.in-addr.arpa") = None.
Proof.
  set (rrs := [Some ("003"%char :: lit "RDE:192.0.2.55")]).
  apply (rpp_getcontroller_short_record (sample_query (Records rrs)) sample_initparse
           sample_count sample_parserr id (blank 128) 128 (lit "0.113.0.203.in-addr.arpa")
           64 (Records rrs) rrs 0 ("003"%char :: lit "RDE:192.0.2.55") "003"%char).
  - reflexivity.
  - lia.
  - reflexivity.
  - by vm_compute.
  - intros j Hj. lia.
  - reflexivity.
  - by vm_compute.
  - reflexivity.
  - by vm_compute.
Defined.

(** ** [main]: a run in which everything succeeds *)

Lemma sys_result_ok (w : os) (r e : Z) (rest : list (Z * Z)) :
  script w = (r, e) :: rest → 0 ≤ r → sys_result w = (r, mkOs rest (errno w) (trace w)).
Proof.
  intros Hs Hr. unfold sys_result. rewrite Hs. destruct (r <? 0) eqn:E; bool_Z; [lia|done].
Qed.

Lemma socket_ok (d t p : Z) (w : os) (r e : Z) (rest : list (Z * Z)) :
  script w = (r, e) :: rest → 0 ≤ r →
  socket d t p w = (r, mkOs rest (errno w) (trace w ++ [Socket d t p r])).
Proof. intros Hs Hr. unfold socket. by rewrite (sys_result_ok _ _ _ _ Hs Hr). Qed.

Lemma connect_ok (fd fam addr : Z) (port : list Z) (w : os) (r e : Z) (rest : list (Z * Z)) :
  script w = (r, e) :: rest → 0 ≤ r →
  connect fd fam addr port w
    = (r, mkOs rest (errno w) (trace w ++ [Connect fd fam addr port r])).
Proof. intros Hs Hr. unfold connect. by rewrite (sys_result_ok _ _ _ _ Hs Hr). Qed.

Lemma send_ok (fd : Z) (buf : list ascii) (flags : Z) (w : os) (e : Z) (rest : list (Z * Z)) :
  script w = (strlen buf, e) :: rest →
  send fd buf (strlen buf) flags w
    = (strlen buf, mkOs rest (errno w) (trace w ++ [Send fd buf flags (strlen buf)])).
Proof.
  intros Hs. unfold send. rewrite (sys_result_ok _ _ _ _ Hs) by (unfold strlen; lia).
  unfold log. cbn [script errno trace]. by rewrite take_strlen.
Qed.

Section MainAdvertise.

Context {packet ns_msg ns_rr : Type}.
Variable pton : Z → list ascii → option (list Z).
Variable res_query : list ascii → Z → Z → Z → Z * packet.
Variable ns_initparse : packet → Z → option ns_msg.
Variable ns_msg_count : ns_msg → Z.
Variable ns_parserr : ns_msg → Z → option ns_rr.
Variable ns_rr_rdata : ns_rr → list ascii.
Variable inet_addr : list ascii → Z.
Variable strerror : Z → list ascii.

Local Abbreviation advertise := (advertise_inpref_to_remote_dst inet_addr strerror).
Local Abbreviation getcontroller :=
  (rpp_getcontroller res_query ns_initparse ns_msg_count ns_parserr ns_rr_rdata).
Local Abbreviation main' :=
  (main pton res_query ns_initparse ns_msg_count ns_parserr ns_rr_rdata inet_addr strerror).

(** The advertiser when every call succeeds and each [send] takes its
    whole piece. *)
Lemma advertise_all_calls_succeed (locpreflist : list ascii) (ttl : Z)
    (servstringaddr preflist : list ascii) (w : os)
    (sock rc e1 e2 e3 e4 e5 e6 e7 : Z) (rest : list (Z * Z)) :
  strlen locpreflist < 2 ^ 32 → strlen preflist < 2 ^ 32 →
  script w = (sock, e1) :: (rc, e2)
             :: (strlen (lit "SETINPREF " ++ fmt_d ttl ++ [TAB]), e3)
             :: (strlen locpreflist, e4) :: (1, e5)
             :: (strlen preflist, e6) :: (2, e7) :: rest →
  0 ≤ sock → 0 ≤ rc →
  advertise locpreflist ttl servstringaddr preflist w
  = (0, mkOs rest (errno w)
          (trace w ++
           [Socket PF_INET SOCK_STREAM IPPROTO_TCP sock;
            Connect sock AF_INET (inet_addr servstringaddr) [16; 247] rc;
            Send sock (lit "SETINPREF " ++ fmt_d ttl ++ [TAB]) MSG_MORE
              (strlen (lit "SETINPREF " ++ fmt_d ttl ++ [TAB]));
            Send sock locpreflist MSG_MORE (strlen locpreflist);
            Send sock [TAB] MSG_MORE 1;
            Send sock preflist MSG_MORE (strlen preflist);
            Send sock [CR; LF] 0 2;
            Close sock])).
Proof.
  intros Hloc Hpref Hs Hsock Hrc.
  assert (Hu1 : to_unsigned (strlen locpreflist) = strlen locpreflist)
    by (apply Z.mod_small; unfold strlen in *; lia).
  assert (Hu2 : to_unsigned (strlen preflist) = strlen preflist)
    by (apply Z.mod_small; unfold strlen in *; lia).
  unfold advertise_inpref_to_remote_dst.
  rewrite (socket_ok _ _ _ _ _ _ _ Hs Hsock).
  destruct (sock <? 0) eqn:E1; bool_Z; [lia|].
  erewrite connect_ok; [|reflexivity|done].
  destruct (rc <? 0) eqn:E2; bool_Z; [lia|].
  erewrite send_ok; [|reflexivity]. rewrite Z.eqb_refl. cbn [negb].
  erewrite send_ok; [|reflexivity]. rewrite Hu1, Z.eqb_refl. cbn [negb].
  erewrite (send_ok _ [TAB]); [|reflexivity]. change (strlen [TAB] =? 1) with true. cbn [negb].
  erewrite send_ok; [|reflexivity]. rewrite Hu2, Z.eqb_refl. cbn [negb].
  erewrite (send_ok _ [CR; LF]); [|reflexivity]. change (strlen [CR; LF] =? 2) with true.
  cbn [negb]. unfold close, log. cbn [script errno trace].
  by rewrite <- !app_assoc.
Qed.

(** X19.  When the reverse name is built, the resolution returns 0 and every
    system call succeeds, each [send] taking its whole piece, the
    [advertise] action reports the controller, connects to port 4343 of the
    address the resolution left in [rdeaddr], sends the message with a
    time to live of 3600 in five pieces, closes the socket, prints [Done.]
    and ends with status 0. *)
Theorem main_advertise_success (arg0 prefixorg locpreflist preflist : list ascii)
    (revdns0 rdeaddr0 revdns rdeaddr : list ascii) (w : os)
    (sock rc e1 e2 e3 e4 e5 e6 e7 : Z) (rest : list (Z * Z)) :
  ip2revdns pton (Some revdns0) 128 (Some (cut_prefix 127 prefixorg)) = (0, Some revdns) →
  getcontroller rdeaddr0 128 (cstr revdns) = Some (0, rdeaddr) →
  strlen locpreflist < 2 ^ 32 → strlen preflist < 2 ^ 32 →
  script w = (sock, e1) :: (rc, e2) :: (15, e3) :: (strlen locpreflist, e4) :: (1, e5)
             :: (strlen preflist, e6) :: (2, e7) :: rest →
  0 ≤ sock → 0 ≤ rc →
  main' [arg0; lit "advertise"; prefixorg; locpreflist; preflist] revdns0 rdeaddr0 w
  = Some (0, mkOs rest (errno w)
               (trace w ++
                [Stdout (lit "RDE controller for " ++ prefixorg ++ lit " is "
                         ++ cstr rdeaddr ++ [LF]);
                 Stdout (lit "Sending preferences..." ++ [LF]);
                 Socket PF_INET SOCK_STREAM IPPROTO_TCP sock;
                 Connect sock AF_INET (inet_addr (cstr rdeaddr)) [16; 247] rc;
                 Send sock (lit "SETINPREF 3600" ++ [TAB]) MSG_MORE 15;
                 Send sock locpreflist MSG_MORE (strlen locpreflist);
                 Send sock [TAB] MSG_MORE 1;
                 Send sock preflist MSG_MORE (strlen preflist);
                 Send sock [CR; LF] 0 2;
                 Close sock;
                 Stdout (lit "Done." ++ [LF])])).
Proof.
  intros Hrev Hget Hloc Hpref Hs Hsock Hrc.
  unfold main. cbn [parse_args]. change (streq (lit "advertise") (lit "advertise")) with true.
  cbv iota. rewrite Hrev. cbn [negb Z.eqb]. cbv iota. rewrite Hget.
  cbn [mbind option_bind]. change (0 =? 0) with true. change (ADVERTISE =? RESOLVE) with false.
  cbv iota.
  erewrite (advertise_all_calls_succeed locpreflist 3600 (cstr rdeaddr) preflist _
              sock rc e1 e2 e3 e4 e5 e6 e7 rest); [|done|done|exact Hs|done|done].
  change (0 =? 0) with true. cbv iota. unfold puts, printf, log. cbn [script errno trace].
  by rewrite <- !app_assoc.
Qed.

End MainAdvertise.

Lemma main_advertise_success_witness :
  sample_main (Records [Some (txt "v=spf1 -all"); Some (txt "RDE:192.0.2.55")])
    [lit "rpp"; lit "advertise"; lit "203.0.113.0/24"; lit "192.0.2.0/24 198.51.100.0/24";
     lit "64552:0 64900:255 65001:127"]
    (blank 128) (blank 128)
    (mkOs [(3, 0); (0, 0); (15, 0); (28, 0); (1, 0); (27, 0); (2, 0)] 0 [])
  = Some (0, mkOs [] 0
               ([] ++
                [Stdout (lit "RDE controller for 203.0.113.0/24 is 192.0.2.55" ++ [LF]);
                 Stdout (lit "Sending preferences..." ++ [LF]);
                 Socket PF_INET SOCK_STREAM IPPROTO_TCP 3;
                 Connect 3 AF_INET 0 [16; 247] 0;
                 Send 3 (lit "SETINPREF 3600" ++ [TAB]) MSG_MORE 15;
                 Send 3 (lit "192.0.2.0/24 198.51.100.0/24") MSG_MORE 28;
                 Send 3 [TAB] MSG_MORE 1;
                 Send 3 (lit "64552:0 64900:255 65001:127") MSG_MORE 27;
                 Send 3 [CR; LF] 0 2;
                 Close 3;
                 Stdout (lit "Done." ++ [LF])])).
Proof.
  apply (main_advertise_success inet_pton
           (sample_query (Records [Some (txt "v=spf1 -all"); Some (txt "RDE:192.0.2.55")]))
           sample_initparse sample_count sample_parserr id sample_inet_addr sample_strerror
           (lit "rpp") (lit "203.0.113.0/24") (lit "192.0.2.0/24 198.51.100.0/24")
           (lit "64552:0 64900:255 65001:127") (blank 128) (blank 128)
           (lit "0.113.0.203.in-addr.arpa" ++ NUL :: blank 103)
           (lit "192.0.2.55" ++ NUL :: blank 117)
           (mkOs [(3, 0); (0, 0); (15, 0); (28, 0); (1, 0); (27, 0); (2, 0)] 0 [])
           3 0 0 0 0 0 0 0 0 []).
  - reflexivity.
  - reflexivity.
  - by vm_compute.
  - by vm_compute.
  - reflexivity.
  - lia.
  - lia.
Defined.
